(** * Function declarations and return statements of the transpiler

    A shallow embedding of [transpiler/functions.go]: the registration of
    function prototypes, the lowering of a function declaration to a Go
    function definition (with the rewriting of [main]) and the lowering of a
    return statement.

    Go strings are byte strings ([string], one [ascii] per byte).  The
    program state that the Go code mutates through [p *program.Program] and
    through the package-level registry of [program] is threaded explicitly;
    a Go panic is an outcome of its own, and the state survives it so that
    deferred calls can run. *)

From Stdlib Require Import Ascii String List NArith Lia.
From stdpp Require Import base option list gmap strings relations.

Import ListNotations.
Set Warnings "-register-all".
Local Open Scope string_scope.
Local Open Scope list_scope.

(** ** Byte strings: [strings.Split] and [strings.TrimSpace] *)

Module GoStrings.

Abbreviation bytes := (list ascii).

(** [strings.Split(s, sep)[0]] for a one-byte separator: the bytes before
    its first occurrence, the whole string when it does not occur. *)
Fixpoint beforeFirst (sep : ascii) (l : bytes) : bytes :=
  match l with
  | [] => []
  | c :: l' => if Ascii.eqb c sep then [] else c :: beforeFirst sep l'
  end.

Definition utf8 (codes : list N) : bytes := map ascii_of_N codes.

(** The UTF-8 encodings of the code points for which [unicode.IsSpace]
    holds: U+0009..U+000D, U+0020, U+0085, U+00A0, U+1680,
    U+2000..U+200A, U+2028, U+2029, U+202F, U+205F and U+3000. *)
Definition spaceRunes : list bytes :=
  map utf8
    [ [9]; [10]; [11]; [12]; [13]; [32];
      [194; 133]; [194; 160];
      [225; 154; 128];
      [226; 128; 128]; [226; 128; 129]; [226; 128; 130]; [226; 128; 131];
      [226; 128; 132]; [226; 128; 133]; [226; 128; 134]; [226; 128; 135];
      [226; 128; 136]; [226; 128; 137]; [226; 128; 138];
      [226; 128; 168]; [226; 128; 169]; [226; 128; 175];
      [226; 129; 159];
      [227; 128; 128] ]%N.

Fixpoint stripPrefix (p l : bytes) : option bytes :=
  match p, l with
  | [], _ => Some l
  | a :: p', b :: l' => if Ascii.eqb a b then stripPrefix p' l' else None
  | _ :: _, [] => None
  end.

(** Removes one leading occurrence of the first pattern that matches. *)
Fixpoint stripAny (ps : list bytes) (l : bytes) : option bytes :=
  match ps with
  | [] => None
  | p :: ps' =>
      match stripPrefix p l with
      | Some r => Some r
      | None => stripAny ps' l
      end
  end.

Fixpoint trimLoop (ps : list bytes) (fuel : nat) (l : bytes) : bytes :=
  match fuel with
  | O => l
  | S k =>
      match stripAny ps l with
      | Some r => trimLoop ps k r
      | None => l
      end
  end.

(** [strings.TrimLeftFunc(s, unicode.IsSpace)] when [ps] is [spaceRunes]:
    a white space rune at the head is decoded from exactly one of the
    encodings above; any other head, valid or not, stops the scan. *)
Definition trimLeft (ps : list bytes) (l : bytes) : bytes :=
  trimLoop ps (length l) l.

(** [strings.TrimRightFunc(s, unicode.IsSpace)]: the last rune is a white
    space exactly when one of the encodings is a suffix, so the scan from
    the right is the scan from the left of the reversed bytes against the
    reversed encodings. *)
Definition trimRight (ps : list bytes) (l : bytes) : bytes :=
  rev (trimLeft (map (@rev ascii) ps) (rev l)).

(** [strings.TrimSpace]. *)
Definition TrimSpaceBytes (l : bytes) : bytes :=
  trimRight spaceRunes (trimLeft spaceRunes l).

Definition TrimSpace (s : string) : string :=
  string_of_list_ascii (TrimSpaceBytes (list_ascii_of_string s)).

Definition SplitFirst (s : string) (sep : ascii) : string :=
  string_of_list_ascii (beforeFirst sep (list_ascii_of_string s)).

(** A byte string made of white space runes only. *)
Inductive runOf (ps : list bytes) : bytes -> Prop :=
| runOf_nil : runOf ps []
| runOf_cons p l : In p ps -> runOf ps l -> runOf ps (p ++ l).

Definition whiteSpace (s : string) : Prop :=
  runOf spaceRunes (list_ascii_of_string s).

(** No white space rune at the head, none at the end. *)
Definition noSpaceAtEnds (s : string) : Prop :=
  stripAny spaceRunes (list_ascii_of_string s) = None /\
  stripAny (map (@rev ascii) spaceRunes) (rev (list_ascii_of_string s)) = None.

End GoStrings.

Import GoStrings.

(** ** The C syntax tree (package [ast]) *)

Module ast.

(** The children of a declaration or statement.  Only parameter
    declarations and compound statements are told apart by the code below;
    every other kind of node is [OtherNode]. *)
Inductive Node : Type :=
| ParmVarDecl (Name Type' : string)
| CompoundStmt (Children : list Node)
| OtherNode (Kind : string) (Children : list Node).

Module FunctionDecl.
Record t : Type := mk { Name : string; Type' : string; Children : list Node }.
End FunctionDecl.

Module ReturnStmt.
Record t : Type := mk { Children : list Node }.
End ReturnStmt.

End ast.

(** ** The Go syntax tree (packages [go/token] and [go/ast]) *)

Module token.
Inductive Token : Type := DEFINE | ASSIGN | INT | FLOAT | CHAR | STRING | OtherToken (Text : string).
End token.

Module goast.

Inductive Expr : Type :=
| Ident (Name : string)
| BasicLit (Kind : token.Token) (Value : string)
| CallExpr (Fun : Expr) (Args : list Expr)
| BinaryExpr (X : Expr) (Op : token.Token) (Y : Expr)
| OtherExpr (Text : string) (Sub : list Expr).

Inductive Stmt : Type :=
| ExprStmt (X : Expr)
| ReturnStmt (Results : list Expr)
| RangeStmt (Key Value : Expr) (Tok : token.Token) (X : Expr) (Body : list Stmt)
| OtherStmt (Text : string).

(** [*goast.BlockStmt] and [*goast.FieldList] are their [List]s. *)
Abbreviation BlockStmt := (list Stmt).

Module Field.
Record t : Type := mk { Names : list Expr; Type' : Expr }.
End Field.

Abbreviation FieldList := (list Field.t).

Module FuncType.
Record t : Type := mk { Params : FieldList; Results : FieldList }.
End FuncType.

Module FuncDecl.
Record t : Type := mk { Name : Expr; Type' : FuncType.t; Body : option BlockStmt }.
End FuncDecl.

(** The entries of [File.Decls]. *)
Inductive Decl : Type :=
| Func (d : FuncDecl.t)
| GenDecl (Text : string).

Definition NewIdent (name : string) : Expr := Ident name.

End goast.

(** ** The program state (package [program]) *)

Module program.

Module FunctionDefinition.
Record t : Type := mk {
  Name : string;
  ReturnType : string;
  ArgumentTypes : list string;
  Substitution : string
}.
End FunctionDefinition.

(** A Go [error] value, by the message its [Error] method returns. *)
Record error : Type := mkError { Error : string }.

(** Everything the code below reads or writes outside its arguments:
    [Function], [Verbose], [messages], [imports] and [Decls] (for
    [File.Decls]) are the fields of [*program.Program]; [functionDefinitions]
    is the package-level registry; [stdout] is what has been printed. *)
Record Program : Type := mkProgram {
  Function : option ast.FunctionDecl.t;
  Verbose : bool;
  messages : list string;
  imports : list string;
  Decls : list goast.Decl;
  functionDefinitions : gmap string FunctionDefinition.t;
  stdout : list string
}.

Definition setFunction (f : option ast.FunctionDecl.t) (p : Program) : Program :=
  mkProgram f (Verbose p) (messages p) (imports p) (Decls p)
            (functionDefinitions p) (stdout p).

Definition setMessages (ms : list string) (p : Program) : Program :=
  mkProgram (Function p) (Verbose p) ms (imports p) (Decls p)
            (functionDefinitions p) (stdout p).

Definition setImports (paths : list string) (p : Program) : Program :=
  mkProgram (Function p) (Verbose p) (messages p) paths (Decls p)
            (functionDefinitions p) (stdout p).

Definition setDecls (ds : list goast.Decl) (p : Program) : Program :=
  mkProgram (Function p) (Verbose p) (messages p) (imports p) ds
            (functionDefinitions p) (stdout p).

Definition setFunctionDefinitions (m : gmap string FunctionDefinition.t)
    (p : Program) : Program :=
  mkProgram (Function p) (Verbose p) (messages p) (imports p) (Decls p)
            m (stdout p).

Definition setStdout (out : list string) (p : Program) : Program :=
  mkProgram (Function p) (Verbose p) (messages p) (imports p) (Decls p)
            (functionDefinitions p) out.

End program.

Import program.

(** ** Computations: state, panics and deferred calls *)

Inductive outcome (A : Type) : Type :=
| Done (a : A)
| Panicked (msg : string).

Arguments Done {A} a.
Arguments Panicked {A} msg.

Definition M (A : Type) : Type := Program -> outcome A * Program.

Definition ret {A : Type} (a : A) : M A := fun p => (Done a, p).

Definition panic {A : Type} (msg : string) : M A := fun p => (Panicked msg, p).

Definition bind {A B : Type} (m : M A) (k : A -> M B) : M B :=
  fun p =>
    match m p with
    | (Done a, p') => k a p'
    | (Panicked msg, p') => (Panicked msg, p')
    end.

Definition gets {A : Type} (f : Program -> A) : M A := fun p => (Done (f p), p).

Definition modify (f : Program -> Program) : M unit := fun p => (Done tt, f p).

(** [defer d; m]: the deferred call runs when [m] returns and when it
    panics, and the panic goes on afterwards. *)
Definition defer {A : Type} (d : Program -> Program) (m : M A) : M A :=
  fun p => let '(r, p') := m p in (r, d p').

Declare Scope go_scope.
Delimit Scope go_scope with go.

Notation "'let*' x ':=' m 'in' k" := (bind m (fun x => k))
  (at level 10, x pattern, m at level 100, k at level 200) : go_scope.

Notation "m ';;;' k" := (bind m (fun _ => k))
  (at level 100, k at level 200, right associativity) : go_scope.

Local Open Scope go_scope.

(** The run-time error of a nil pointer dereference. *)
Definition nilDereference : string :=
  "runtime error: invalid memory address or nil pointer dereference".

(** [x.f] for a pointer [x] that may be nil. *)
Definition deref {A : Type} (x : option A) : M A :=
  match x with
  | Some a => ret a
  | None => panic nilDereference
  end.

(** ** Helpers of the packages [program], [ast] and [util] *)

(** Modelled from the spec: the registry of package [program] is not among
    the sources.  The spec has it as a mapping from a function name to one
    signature, with [lookup(name)] returning the registered signature or
    its absence; the test for an earlier registration is made by the caller
    in [transpileFunctionDecl]. *)
Definition GetFunctionDefinition (functionName : string)
    : M (option FunctionDefinition.t) :=
  gets (fun p => functionDefinitions p !! functionName).

(** Modelled from the spec: the insertion of a signature under its name in
    the registry of package [program]. *)
Definition AddFunctionDefinition (f : FunctionDefinition.t) : M unit :=
  modify (fun p =>
    setFunctionDefinitions
      (<[FunctionDefinition.Name f := f]> (functionDefinitions p)) p).

(** Modelled from the spec: [ast.GenerateWarningMessage] is not among the
    sources.  A failure is "downgraded to a collected diagnostic": no error
    gives the empty message, an error gives a warning that names the kind of
    node and carries the error's message. *)
Definition GenerateWarningMessage (e : option error) (nodeKind : string)
    : string :=
  match e with
  | Some err => "// Warning (" +:+ nodeKind +:+ "): " +:+ Error err
  | None => ""
  end.

(** Modelled from the spec: [Program.AddMessage] is not among the sources.
    Warnings "are collected": a non-empty message is appended to the
    collected messages, and the result tells whether one was. *)
Definition AddMessage (message : string) : M bool :=
  fun p =>
    if String.eqb message "" then (Done false, p)
    else (Done true, setMessages (messages p ++ [message]) p).

(** Modelled from the spec: [Program.AddImport] is not among the sources.
    The module is "recorded as required by the program's import list", once. *)
Definition AddImport (importPath : string) : M unit :=
  modify (fun p =>
    if existsb (String.eqb importPath) (imports p) then p
    else setImports (imports p ++ [importPath]) p).

(** [fmt.Printf] with the text already formatted. *)
Definition Printf (text : string) : M unit :=
  modify (fun p => setStdout (stdout p ++ [text]) p).

(** [strings.Join]. *)
Fixpoint Join (elems : list string) (sep : string) : string :=
  match elems with
  | [] => ""
  | [x] => x
  | x :: rest => x +:+ sep +:+ Join rest sep
  end.

Module util.

(** Modelled from the spec: the constructors of package [util] are not among
    the sources; each builds the node its name says. *)
Definition NewExprStmt (e : goast.Expr) : goast.Stmt := goast.ExprStmt e.

Definition NewCallExpr (functionName : string) (args : list goast.Expr)
    : goast.Expr :=
  goast.CallExpr (goast.NewIdent functionName) args.

Definition NewBinaryExpr (left : goast.Expr) (operator : token.Token)
    (right : goast.Expr) : goast.Expr :=
  goast.BinaryExpr left operator right.

Definition NewStringLit (value : string) : goast.Expr :=
  goast.BasicLit token.STRING value.

End util.

(** ** [transpiler/functions.go] *)

(** [getFunctionBody]: the first child that is a compound statement. *)
Fixpoint getFunctionBodyOf (children : list ast.Node) : option ast.Node :=
  match children with
  | [] => None
  | ast.CompoundStmt cs :: _ => Some (ast.CompoundStmt cs)
  | _ :: rest => getFunctionBodyOf rest
  end.

Definition getFunctionBody (n : ast.FunctionDecl.t) : option ast.Node :=
  getFunctionBodyOf (ast.FunctionDecl.Children n).

(** [getFunctionReturnType]; it panics on an empty return type. *)
Definition getFunctionReturnType (f : string) : outcome string :=
  let returnType := TrimSpace (SplitFirst f "(") in
  if String.eqb returnType "" then
    Panicked ("unable to extract the return type from: " +:+ f)
  else Done returnType.

(** [getFunctionArgumentTypes]. *)
Fixpoint getArgumentTypesOf (children : list ast.Node) : list string :=
  match children with
  | [] => []
  | ast.ParmVarDecl _ ty :: rest => ty :: getArgumentTypesOf rest
  | _ :: rest => getArgumentTypesOf rest
  end.

Definition getFunctionArgumentTypes (f : ast.FunctionDecl.t) : list string :=
  getArgumentTypesOf (ast.FunctionDecl.Children f).

(** A call of a function that may panic. *)
Definition call {A : Type} (r : outcome A) : M A := fun p => (r, p).

(** The names that [transpileFunctionDecl] skips. *)
Definition isIgnoredName (name : string) : bool :=
  String.eqb name "__istype" ||
  String.eqb name "__isctype" ||
  String.eqb name "__wcwidth" ||
  String.eqb name "__sputc" ||
  String.eqb name "__inline_signbitf" ||
  String.eqb name "__inline_signbitd" ||
  String.eqb name "__inline_signbitl".

(** [p.Function != nil && p.Function.Name == "main"]. *)
Definition inMain (fn : option ast.FunctionDecl.t) : bool :=
  match fn with
  | Some d => String.eqb (ast.FunctionDecl.Name d) "main"
  | None => false
  end.

(** [l[i]], with the run-time panic of an index out of range. *)
Definition index {A : Type} (l : list A) (i : nat) : M A :=
  match l !! i with
  | Some a => ret a
  | None => panic "runtime error: index out of range"
  end.

Section Transpiler.

(** The statement, expression and type lowering that this file calls.  Each
    receives [p] and may change it. *)
Variable transpileToBlockStmt :
  ast.Node ->
  M (option goast.BlockStmt * list goast.Stmt * list goast.Stmt * option error).
Variable transpileToExpr :
  ast.Node ->
  M (goast.Expr * string * list goast.Stmt * list goast.Stmt * option error).
Variable ResolveType : string -> M (string * option error).
Variable CastExpr :
  goast.Expr -> string -> string -> M (goast.Expr * option error).

(** The loop of [getFieldList]. *)
Fixpoint getFieldListOf (children : list ast.Node) (r : goast.FieldList)
    : M goast.FieldList :=
  match children with
  | [] => ret r
  | ast.ParmVarDecl name ty :: rest =>
      let* (t, err) := ResolveType ty in
      AddMessage (GenerateWarningMessage err "FunctionDecl") ;;;
      getFieldListOf rest
        (r ++ [goast.Field.mk [goast.NewIdent name] (goast.NewIdent t)])
  | _ :: rest => getFieldListOf rest r
  end.

(** [getFieldList]: the parameters of a C function as a Go field list. *)
Definition getFieldList (f : ast.FunctionDecl.t)
    : M (goast.FieldList * option error) :=
  let* r := getFieldListOf (ast.FunctionDecl.Children f) [] in
  ret (r, None).

(** The statements placed at the top of [main], and what becomes of its
    parameters and result types (lines 127 to 200). *)
Definition rewriteMain (fieldList : goast.FieldList)
    (body : option goast.BlockStmt)
    : M (goast.FieldList * goast.FieldList * option goast.BlockStmt) :=
  let returnTypes : goast.FieldList := [] in
  let prependStmtsInMain : list goast.Stmt := [] in
  let prependStmtsInMain :=
    prependStmtsInMain ++ [util.NewExprStmt (util.NewCallExpr "__init" [])] in
  let* prependStmtsInMain :=
    if (0 <? length fieldList)%nat then
      AddImport "os" ;;;
      let* field0 := index fieldList 0 in
      let* argc := index (goast.Field.Names field0) 0 in
      ret (prependStmtsInMain ++
           [goast.ExprStmt
              (util.NewBinaryExpr argc token.DEFINE
                 (goast.NewIdent "len(os.Args)"))])
    else ret prependStmtsInMain in
  let* prependStmtsInMain :=
    if (1 <? length fieldList)%nat then
      let* field1 := index fieldList 1 in
      let* argv := index (goast.Field.Names field1) 0 in
      ret (prependStmtsInMain ++
           [goast.ExprStmt
              (util.NewBinaryExpr argv token.DEFINE
                 (goast.NewIdent "[][]byte{}"));
            goast.RangeStmt (goast.NewIdent "_") (goast.NewIdent "argvSingle")
              token.DEFINE (goast.NewIdent "os.Args")
              [goast.ExprStmt
                 (util.NewBinaryExpr argv token.ASSIGN
                    (util.NewCallExpr "append"
                       [argv; goast.NewIdent "[]byte(argvSingle)"]))]])
    else ret prependStmtsInMain in
  let* bodyList := deref body in
  ret ([], returnTypes, Some (prependStmtsInMain ++ bodyList)).

(** [transpileFunctionDecl]. *)
Definition transpileFunctionDecl (n : ast.FunctionDecl.t) : M (option error) :=
  let name := ast.FunctionDecl.Name n in
  defer (setFunction None)
    (modify (setFunction (Some n)) ;;;
     let* registered := GetFunctionDefinition name in
     match registered with
     | None =>
         let* returnType := call (getFunctionReturnType (ast.FunctionDecl.Type' n)) in
         AddFunctionDefinition
           (FunctionDefinition.mk name returnType (getFunctionArgumentTypes n) "")
     | Some _ => ret tt
     end ;;;
     let* f := GetFunctionDefinition name in
     if match f with
        | Some d => negb (String.eqb (FunctionDefinition.Substitution d) "")
        | None => false
        end
     then ret None
     else
       let functionBody := getFunctionBody n in
       let afterBody (body : option goast.BlockStmt) : M (option error) :=
         if isIgnoredName name then ret None
         else
           match functionBody with
           | None => ret None
           | Some _ =>
               let* verbose := gets Verbose in
               (if verbose : bool then
                  let* d := deref f in
                  Printf ("// Function: " +:+ FunctionDefinition.Name d +:+ "(" +:+
                          Join (FunctionDefinition.ArgumentTypes d) ", " +:+ ")" +:+
                          String (ascii_of_nat 10) "")
                else ret tt) ;;;
               let* (fieldList, err) := getFieldList n in
               match err with
               | Some e => ret (Some e)
               | None =>
                   let* d := deref f in
                   let* (t, err) := ResolveType (FunctionDefinition.ReturnType d) in
                   AddMessage (GenerateWarningMessage err "FunctionDecl") ;;;
                   let returnTypes := [goast.Field.mk [] (goast.NewIdent t)] in
                   let* fn := gets Function in
                   let* (fieldList, returnTypes, body) :=
                     if inMain fn then rewriteMain fieldList body
                     else ret (fieldList, returnTypes, body) in
                   modify (fun p =>
                     setDecls
                       (Decls p ++
                        [goast.Func
                           (goast.FuncDecl.mk (goast.NewIdent name)
                              (goast.FuncType.mk fieldList returnTypes) body)])
                       p) ;;;
                   ret None
               end
           end in
       match functionBody with
       | Some b =>
           let* (body, _, _, err) := transpileToBlockStmt b in
           match err with
           | Some e => ret (Some e)
           | None => afterBody body
           end
       | None => afterBody None
       end).

(** The type assertion of [e] to a basic literal and the test of line 263. *)
Definition exitsWithStatus (e : goast.Expr) : bool :=
  let '(litValue, isLiteral) :=
    match e with
    | goast.BasicLit _ v => (v, true)
    | _ => ("", false)
    end in
  negb isLiteral || (isLiteral && negb (String.eqb litValue "0")).

(** [transpileReturnStmt]. *)
Definition transpileReturnStmt (n : ast.ReturnStmt.t)
    : M (option goast.Stmt * list goast.Stmt * list goast.Stmt * option error) :=
  match ast.ReturnStmt.Children n with
  | [] => ret (Some (goast.ReturnStmt []), [], [], None)
  | child :: _ =>
      let* (e, eType, preStmts, postStmts, err) := transpileToExpr child in
      match err with
      | Some er => ret (None, [], [], Some er)
      | None =>
          let* fn := gets Function in
          let* decl := deref fn in
          let* f := GetFunctionDefinition (ast.FunctionDecl.Name decl) in
          let* d := deref f in
          let* (t, err) := CastExpr e eType (FunctionDefinition.ReturnType d) in
          let* failed := AddMessage (GenerateWarningMessage err "ReturnStmt") in
          let t := if failed : bool then util.NewStringLit "nil" else t in
          let results := [t] in
          let* fn := gets Function in
          if inMain fn then
            if exitsWithStatus e then
              AddImport "os" ;;;
              ret (Some (util.NewExprStmt (util.NewCallExpr "os.Exit" results)),
                   preStmts, postStmts, None)
            else ret (Some (goast.ReturnStmt []), preStmts, postStmts, None)
          else ret (Some (goast.ReturnStmt results), preStmts, postStmts, None)
      end
  end.

End Transpiler.

(** * Vocabulary of the properties *)

(** The value that is returned: the cast, or [nil] when there is none. *)
Definition returnedValue (t : goast.Expr) (err : option error) : goast.Expr :=
  match err with
  | Some _ => util.NewStringLit "nil"
  | None => t
  end.

(** [p] once the failure of the cast, if any, has been recorded. *)
Definition afterWarning (err : option error) (p : Program) : Program :=
  match err with
  | Some _ =>
      setMessages (messages p ++ [GenerateWarningMessage err "ReturnStmt"]) p
  | None => p
  end.

(** The signature that lines 60 to 71 find for [n]: the one already
    registered under its name, or else the one read off the prototype. *)
Definition signatureOf (n : ast.FunctionDecl.t) (p : Program)
    : outcome FunctionDefinition.t :=
  match functionDefinitions p !! ast.FunctionDecl.Name n with
  | Some d => Done d
  | None =>
      match getFunctionReturnType (ast.FunctionDecl.Type' n) with
      | Done returnType =>
          Done (FunctionDefinition.mk (ast.FunctionDecl.Name n) returnType
                  (getFunctionArgumentTypes n) "")
      | Panicked msg => Panicked msg
      end
  end.

(** [p] at line 71: [n] is the active function and is registered. *)
Definition entered (n : ast.FunctionDecl.t) (d : FunctionDefinition.t)
    (p : Program) : Program :=
  match functionDefinitions p !! ast.FunctionDecl.Name n with
  | Some _ => setFunction (Some n) p
  | None =>
      setFunctionDefinitions
        (<[ast.FunctionDecl.Name n := d]> (functionDefinitions p))
        (setFunction (Some n) p)
  end.

(** [p] once the function has been announced, which verbose mode does. *)
Definition announced (d : FunctionDefinition.t) (p : Program) : Program :=
  if Verbose p then
    setStdout
      (stdout p ++
       ["// Function: " +:+ FunctionDefinition.Name d +:+ "(" +:+
        Join (FunctionDefinition.ArgumentTypes d) ", " +:+ ")" +:+
        String (ascii_of_nat 10) ""]) p
  else p.

(** [p] with one more function definition in [File.Decls]. *)
Definition withDefinition (name : string) (params results : goast.FieldList)
    (body : option goast.BlockStmt) (p : Program) : Program :=
  setDecls
    (Decls p ++
     [goast.Func
        (goast.FuncDecl.mk (goast.Ident name)
           (goast.FuncType.mk params results) body)]) p.

(** The names of the declared parameters, in order. *)
Fixpoint parameterNames (children : list ast.Node) : list string :=
  match children with
  | [] => []
  | ast.ParmVarDecl name _ :: rest => name :: parameterNames rest
  | _ :: rest => parameterNames rest
  end.

(** The statements that open [main] when it declares the parameters [argc]
    and [argv]. *)
Definition mainPrologue (argc argv : string) : list goast.Stmt :=
  [ goast.ExprStmt (goast.CallExpr (goast.Ident "__init") []);
    goast.ExprStmt
      (goast.BinaryExpr (goast.Ident argc) token.DEFINE
         (goast.Ident "len(os.Args)"));
    goast.ExprStmt
      (goast.BinaryExpr (goast.Ident argv) token.DEFINE
         (goast.Ident "[][]byte{}"));
    goast.RangeStmt (goast.Ident "_") (goast.Ident "argvSingle") token.DEFINE
      (goast.Ident "os.Args")
      [goast.ExprStmt
         (goast.BinaryExpr (goast.Ident argv) token.ASSIGN
            (goast.CallExpr (goast.Ident "append")
               [goast.Ident argv; goast.Ident "[]byte(argvSingle)"]))] ].

(** Every signature registered in [p] is still the one registered in [p']. *)
Definition keepsRegistered (p p' : Program) : Prop :=
  forall name d,
    functionDefinitions p !! name = Some d ->
    functionDefinitions p' !! name = Some d.

(** [p'] is [p] after the lowering of one more declaration. *)
Definition lowers
    (transpileToBlockStmt :
       ast.Node ->
       M (option goast.BlockStmt * list goast.Stmt * list goast.Stmt * option error))
    (ResolveType : string -> M (string * option error))
    (p p' : Program) : Prop :=
  exists n, p' = snd (transpileFunctionDecl transpileToBlockStmt ResolveType n p).

(** A computation preserves [R] when [R] relates [p] before it to [p]
    after it. *)
Definition preserves (R : Program -> Program -> Prop) {A : Type} (m : M A)
    : Prop :=
  forall p, R p (snd (m p)).

(** ** Sample inputs *)

Module Samples.

Definition emptyProgram : Program := mkProgram None false [] [] [] ∅ [].

Definition mainDecl : ast.FunctionDecl.t :=
  ast.FunctionDecl.mk "main" "int (int, char **)"
    [ast.ParmVarDecl "argc" "int"; ast.ParmVarDecl "argv" "char **";
     ast.CompoundStmt [ast.OtherNode "ReturnStmt" []]].

Definition mainSignature : FunctionDefinition.t :=
  FunctionDefinition.mk "main" "int" ["int"; "char **"] "".

(** [p] while the body of [main] is lowered. *)
Definition inMainProgram : Program :=
  mkProgram (Some mainDecl) false [] [] [] {["main" := mainSignature]} [].

Definition squareDecl : ast.FunctionDecl.t :=
  ast.FunctionDecl.mk "square" "void (int)"
    [ast.ParmVarDecl "x" "int"; ast.CompoundStmt []].

Definition squareSignature : FunctionDefinition.t :=
  FunctionDefinition.mk "square" "void" ["int"] "".

(** A later declaration of [square] with another prototype. *)
Definition squareRedeclared : ast.FunctionDecl.t :=
  ast.FunctionDecl.mk "square" "long (long)" [ast.ParmVarDecl "x" "long"].

Definition istypeSignature : FunctionDefinition.t :=
  FunctionDefinition.mk "__istype" "int" ["int"; "unsigned long"] "".

Definition istypeDecl : ast.FunctionDecl.t :=
  ast.FunctionDecl.mk "__istype" "int (int, unsigned long)"
    [ast.ParmVarDecl "_c" "int"; ast.ParmVarDecl "_f" "unsigned long";
     ast.CompoundStmt [ast.OtherNode "ReturnStmt" []]].

Definition printfDecl : ast.FunctionDecl.t :=
  ast.FunctionDecl.mk "printf" "int (const char *, ...)"
    [ast.ParmVarDecl "format" "const char *"].

Definition printfSignature : FunctionDefinition.t :=
  FunctionDefinition.mk "printf" "int" ["const char *"] "fmt.Printf".

Definition withPrintf : Program :=
  mkProgram None false [] [] [] {["printf" := printfSignature]} [].

Definition returnOne : ast.ReturnStmt.t :=
  ast.ReturnStmt.mk [ast.OtherNode "IntegerLiteral" []].

Definition bareReturn : ast.ReturnStmt.t := ast.ReturnStmt.mk [].

(** A lowering of blocks that yields a bare return, one that fails. *)
Definition lowerBlock (b : ast.Node)
    : M (option goast.BlockStmt * list goast.Stmt * list goast.Stmt * option error) :=
  ret (Some [goast.ReturnStmt []], [], [], None).

Definition failBlock (b : ast.Node)
    : M (option goast.BlockStmt * list goast.Stmt * list goast.Stmt * option error) :=
  ret (None, [], [], Some (mkError "cannot transpile statement")).

Definition resolve (ty : string) : M (string * option error) := ret (ty, None).

Definition lowerExprOne (e : ast.Node)
    : M (goast.Expr * string * list goast.Stmt * list goast.Stmt * option error) :=
  ret (goast.BasicLit token.INT "1", "int", [], [], None).

Definition castSame (e : goast.Expr) (from to : string)
    : M (goast.Expr * option error) :=
  ret (e, None).

Definition castFails (e : goast.Expr) (from to : string)
    : M (goast.Expr * option error) :=
  ret (e, Some (mkError "cannot cast")).

End Samples.

Import Samples.

(** ** Further vocabulary *)

Definition isCompoundStmt (c : ast.Node) : bool :=
  match c with
  | ast.CompoundStmt _ => true
  | _ => false
  end.

(** The declared parameters, each with its name and its C type, in order. *)
Fixpoint parameters (children : list ast.Node) : list (string * string) :=
  match children with
  | [] => []
  | ast.ParmVarDecl name ty :: rest => (name, ty) :: parameters rest
  | _ :: rest => parameters rest
  end.

(** The field of a parameter whose type resolves to [t]. *)
Definition fieldOf (name t : string) : goast.Field.t :=
  goast.Field.mk [goast.Ident name] (goast.Ident t).

(** The warnings for the types that do not resolve, in order. *)
Fixpoint warningsOf (resolve : string -> string * option error)
    (params : list (string * string)) : list string :=
  match params with
  | [] => []
  | (_, ty) :: rest =>
      match snd (resolve ty) with
      | Some e => GenerateWarningMessage (Some e) "FunctionDecl" :: warningsOf resolve rest
      | None => warningsOf resolve rest
      end
  end.

(** [p] with the messages [ws] recorded one after the other. *)
Definition recorded (ws : list string) (p : Program) : Program :=
  fold_left (fun q w => setMessages (messages q ++ [w]) q) ws p.

(** The line that verbose mode prints for a function. *)
Definition announcement (d : FunctionDefinition.t) : string :=
  "// Function: " +:+ FunctionDefinition.Name d +:+ "(" +:+
  Join (FunctionDefinition.ArgumentTypes d) ", " +:+ ")" +:+
  String (ascii_of_nat 10) "".

(** A computation that leaves [p.Function] as it is. *)
Definition keepsFunction {A : Type} (m : M A) : Prop :=
  forall p, Function (snd (m p)) = Function p.

(** The run of the loop of [getFieldList] over [children], from the fields
    [r] and the program [p], with its outcome: the type of each parameter
    is resolved in turn, and each of these calls is made in a program that
    satisfies [P]. *)
Inductive fieldListRun (ResolveType : string -> M (string * option error))
    (P : Program -> Prop)
  : list ast.Node -> goast.FieldList -> Program ->
    outcome goast.FieldList * Program -> Prop :=
| run_end r p :
    fieldListRun ResolveType P [] r p (Done r, p)
| run_resolved name ty rest r p t err q res :
    P p ->
    ResolveType ty p = (Done (t, err), q) ->
    fieldListRun ResolveType P rest
      (r ++ [goast.Field.mk [goast.NewIdent name] (goast.NewIdent t)])
      (snd (AddMessage (GenerateWarningMessage err "FunctionDecl") q)) res ->
    fieldListRun ResolveType P (ast.ParmVarDecl name ty :: rest) r p res
| run_panicked name ty rest r p msg q :
    P p ->
    ResolveType ty p = (Panicked msg, q) ->
    fieldListRun ResolveType P (ast.ParmVarDecl name ty :: rest) r p
      (Panicked msg, q)
| run_compound cs rest r p res :
    fieldListRun ResolveType P rest r p res ->
    fieldListRun ResolveType P (ast.CompoundStmt cs :: rest) r p res
| run_other kind cs rest r p res :
    fieldListRun ResolveType P rest r p res ->
    fieldListRun ResolveType P (ast.OtherNode kind cs :: rest) r p res.

(** The lowering of [n] from [p] comes to line 104 with a body: the
    signature [d] is found or registered, it has no substitution, the body
    is lowered without error to [body], which leaves the program [p1], and
    the name is not one of the skipped names. *)
Definition bodyLowered
    (transpileToBlockStmt :
       ast.Node ->
       M (option goast.BlockStmt * list goast.Stmt * list goast.Stmt * option error))
    (n : ast.FunctionDecl.t) (p : Program) (d : FunctionDefinition.t)
    (body : option goast.BlockStmt) (p1 : Program) : Prop :=
  signatureOf n p = Done d /\
  FunctionDefinition.Substitution d = "" /\
  isIgnoredName (ast.FunctionDecl.Name n) = false /\
  exists b preStmts postStmts,
    getFunctionBody n = Some b /\
    transpileToBlockStmt b (entered n d p) =
      (Done (body, preStmts, postStmts, None), p1).

Module MoreSamples.

Definition mainNoArguments : ast.FunctionDecl.t :=
  ast.FunctionDecl.mk "main" "int (void)"
    [ast.CompoundStmt [ast.OtherNode "ReturnStmt" []]].

Definition mainOneArgument : ast.FunctionDecl.t :=
  ast.FunctionDecl.mk "main" "int (int)"
    [ast.ParmVarDecl "argc" "int";
     ast.CompoundStmt [ast.OtherNode "ReturnStmt" []]].

Definition mainVoidSignature : FunctionDefinition.t :=
  FunctionDefinition.mk "main" "int" [] "".

Definition mainIntSignature : FunctionDefinition.t :=
  FunctionDefinition.mk "main" "int" ["int"] "".

(** A prototype with a parameter of a type that does not resolve. *)
Definition areaDecl : ast.FunctionDecl.t :=
  ast.FunctionDecl.mk "area" "double (struct shape, double)"
    [ast.ParmVarDecl "s" "struct shape"; ast.ParmVarDecl "scale" "double";
     ast.CompoundStmt []].

Definition areaSignature : FunctionDefinition.t :=
  FunctionDefinition.mk "area" "double" ["struct shape"; "double"] "".

Definition areaPrototype : ast.FunctionDecl.t :=
  ast.FunctionDecl.mk "area" "double (struct shape, double)"
    [ast.ParmVarDecl "s" "struct shape"; ast.ParmVarDecl "scale" "double"].

(** A resolution of types that knows [int] and [double] and leaves [p]
    alone. *)
Definition resolveKnown (ty : string) : string * option error :=
  if String.eqb ty "int" then ("int", None)
  else if String.eqb ty "double" then ("float64", None)
  else ("interface{}", Some (mkError ("cannot resolve type " +:+ ty))).

Definition resolvePure (ty : string) : M (string * option error) :=
  ret (resolveKnown ty).

Definition failExpr (e : ast.Node)
    : M (goast.Expr * string * list goast.Stmt * list goast.Stmt * option error) :=
  ret (goast.Ident "x", "int", [goast.OtherStmt "tmp := x"], [],
       Some (mkError "cannot transpile expression")).

Definition lowerExprX (e : ast.Node)
    : M (goast.Expr * string * list goast.Stmt * list goast.Stmt * option error) :=
  ret (goast.Ident "x", "int", [goast.OtherStmt "tmp := x"], [], None).

(** A prototype without a return type. *)
Definition noTypeDecl : ast.FunctionDecl.t :=
  ast.FunctionDecl.mk "f" " (int)" [ast.ParmVarDecl "x" "int"].

(** [square], first declared with the return type [int], is declared again
    with the return type [long] and a body. *)
Definition squareLong : ast.FunctionDecl.t :=
  ast.FunctionDecl.mk "square" "long (long)"
    [ast.ParmVarDecl "x" "long";
     ast.CompoundStmt [ast.OtherNode "ReturnStmt" []]].

Definition squareIntSignature : FunctionDefinition.t :=
  FunctionDefinition.mk "square" "int" ["int"] "".

Definition squareProgram : Program :=
  mkProgram
    (Some (ast.FunctionDecl.mk "square" "int (int)" [ast.ParmVarDecl "x" "int"]))
    false [] [] []
    {["square" := FunctionDefinition.mk "square" "int" ["int"] ""]} [].

Definition verboseProgram : Program :=
  mkProgram None true [] [] [] ∅ [].

End MoreSamples.

(** * Properties *)

(** ** Trimming and splitting *)

Example trim_ascii : TrimSpace "  unsigned long " = "unsigned long".
Proof. reflexivity. Qed.

(** A no-break space, U+00A0, is two bytes. *)
Example trim_nbsp :
  TrimSpace (String (ascii_of_nat 194) (String (ascii_of_nat 160) "int")) = "int".
Proof. reflexivity. Qed.

Example returnType_int : getFunctionReturnType "int (float)" = Done "int".
Proof. reflexivity. Qed.

Example returnType_pointer :
  getFunctionReturnType "void (*)(int) (int, void (*)(int))" = Done "void".
Proof. reflexivity. Qed.

Example returnType_none :
  getFunctionReturnType " (int)" =
    Panicked "unable to extract the return type from:  (int)".
Proof. reflexivity. Qed.

Module GoStringsFacts.

Lemma stripPrefix_app (p l r : list ascii) :
  stripPrefix p l = Some r -> l = p ++ r.
Proof.
  revert l; induction p as [|a p IH]; intros [|b l] H; simpl in H;
    try discriminate; try (injection H as <-; reflexivity).
  destruct (Ascii.eqb a b) eqn:E; [|discriminate].
  apply Ascii.eqb_eq in E; subst b. simpl. f_equal. auto.
Qed.

Lemma stripPrefix_self (p y : list ascii) : stripPrefix p (p ++ y) = Some y.
Proof.
  induction p as [|a p IH]; simpl; [reflexivity|].
  now rewrite Ascii.eqb_refl.
Qed.

Lemma stripAny_app (ps : list (list ascii)) (l r : list ascii) :
  stripAny ps l = Some r -> exists p, In p ps /\ l = p ++ r.
Proof.
  induction ps as [|p ps IH]; simpl; [discriminate|].
  destruct (stripPrefix p l) as [r'|] eqn:E.
  - intros [= <-]. exists p. split; [now left | now apply stripPrefix_app].
  - intros H. destruct (IH H) as (q & Hq & ->). exists q. split; [now right | reflexivity].
Qed.

Lemma stripAny_complete (ps : list (list ascii)) (p y : list ascii) :
  In p ps -> stripAny ps (p ++ y) <> None.
Proof.
  induction ps as [|q ps IH]; simpl; [tauto|].
  intros [-> | Hin].
  - now rewrite stripPrefix_self.
  - destruct (stripPrefix q (p ++ y)); [discriminate | auto].
Qed.

(** A prefix of a byte string without leading white space has none. *)
Lemma stripAny_prefix (ps : list (list ascii)) (a b : list ascii) :
  stripAny ps (a ++ b) = None -> stripAny ps a = None.
Proof.
  intros H. destruct (stripAny ps a) as [x|] eqn:E; [|reflexivity].
  destruct (stripAny_app _ _ _ E) as (p & Hp & ->).
  exfalso. revert H. rewrite <- List.app_assoc. now apply stripAny_complete.
Qed.

Lemma runOf_app (ps : list (list ascii)) (a b : list ascii) :
  runOf ps a -> runOf ps b -> runOf ps (a ++ b).
Proof.
  induction 1 as [|p l Hp Hl IH]; intros Hb; [assumption|].
  rewrite <- List.app_assoc. constructor; auto.
Qed.

Lemma runOf_rev (ps : list (list ascii)) (l : list ascii) :
  runOf (map (@rev ascii) ps) l -> runOf ps (rev l).
Proof.
  induction 1 as [|q l Hq Hl IH]; simpl; [constructor|].
  apply List.in_map_iff in Hq as (p & <- & Hp).
  rewrite rev_app_distr, rev_involutive.
  apply runOf_app; [assumption|].
  rewrite <- (app_nil_r p). constructor; [assumption | constructor].
Qed.

Section Trim.

Variable ps : list (list ascii).
Hypothesis nonempty : Forall (fun p => p <> []) ps.

Lemma stripAny_shorter (l r : list ascii) :
  stripAny ps l = Some r -> length r < length l.
Proof.
  intros H. destruct (stripAny_app _ _ _ H) as (p & Hp & ->).
  rewrite List.Forall_forall in nonempty. specialize (nonempty p Hp).
  rewrite length_app. destruct p; [congruence | simpl; lia].
Qed.

(** With the length of the string as fuel the scan ends on a string
    without leading white space, having removed white space only. *)
Lemma trimLoop_spec (fuel : nat) (l : list ascii) :
  length l <= fuel ->
  exists sp, runOf ps sp /\ l = sp ++ trimLoop ps fuel l /\
             stripAny ps (trimLoop ps fuel l) = None.
Proof.
  revert l; induction fuel as [|k IH]; intros l Hlen; simpl.
  - destruct l; [|simpl in Hlen; lia].
    exists []. repeat split; [constructor|].
    destruct (stripAny ps []) as [r|] eqn:E; [|reflexivity].
    apply stripAny_shorter in E. simpl in E. lia.
  - destruct (stripAny ps l) as [r|] eqn:E.
    + pose proof (stripAny_shorter _ _ E) as Hr.
      destruct (stripAny_app _ _ _ E) as (p & Hp & ->).
      destruct (IH r ltac:(lia)) as (sp & Hsp & Heq & Hnone).
      exists (p ++ sp). split; [now constructor|].
      split; [|assumption]. rewrite <- List.app_assoc. now f_equal.
    + exists []. repeat split; [constructor | assumption].
Qed.

Lemma trimLeft_spec (l : list ascii) :
  exists sp, runOf ps sp /\ l = sp ++ trimLeft ps l /\
             stripAny ps (trimLeft ps l) = None.
Proof. apply trimLoop_spec. reflexivity. Qed.

End Trim.

Lemma nonempty_rev (ps : list (list ascii)) :
  Forall (fun p => p <> []) ps ->
  Forall (fun p => p <> []) (map (@rev ascii) ps).
Proof.
  intros H. apply List.Forall_forall. intros q Hq.
  apply List.in_map_iff in Hq as (p & <- & Hp).
  rewrite List.Forall_forall in H. specialize (H p Hp).
  intros E. apply H. rewrite <- (rev_involutive p), E. reflexivity.
Qed.

Lemma trimRight_spec (ps : list (list ascii)) (l : list ascii) :
  Forall (fun p => p <> []) ps ->
  exists sp, runOf ps sp /\ l = trimRight ps l ++ sp /\
             stripAny (map (@rev ascii) ps) (rev (trimRight ps l)) = None.
Proof.
  intros Hne. unfold trimRight.
  destruct (trimLeft_spec _ (nonempty_rev _ Hne) (rev l)) as (sp & Hsp & Heq & Hnone).
  exists (rev sp). split; [now apply runOf_rev|]. split.
  - rewrite <- rev_app_distr, <- Heq. now rewrite rev_involutive.
  - now rewrite rev_involutive.
Qed.

Lemma spaceRunes_nonempty : Forall (fun p => p <> []) spaceRunes.
Proof. repeat constructor; discriminate. Qed.

Lemma TrimSpaceBytes_spec (l : list ascii) :
  exists sp1 sp2,
    runOf spaceRunes sp1 /\ runOf spaceRunes sp2 /\
    l = sp1 ++ TrimSpaceBytes l ++ sp2 /\
    stripAny spaceRunes (TrimSpaceBytes l) = None /\
    stripAny (map (@rev ascii) spaceRunes) (rev (TrimSpaceBytes l)) = None.
Proof.
  unfold TrimSpaceBytes.
  destruct (trimLeft_spec _ spaceRunes_nonempty l) as (sp1 & H1 & E1 & N1).
  destruct (trimRight_spec spaceRunes (trimLeft spaceRunes l) spaceRunes_nonempty)
    as (sp2 & H2 & E2 & N2).
  exists sp1, sp2. repeat split; try assumption.
  - now rewrite <- E2.
  - rewrite E2 in N1. now apply stripAny_prefix in N1.
Qed.

Lemma beforeFirst_spec (sep : ascii) (l : list ascii) :
  (l = beforeFirst sep l \/ exists rest, l = beforeFirst sep l ++ sep :: rest) /\
  ~ In sep (beforeFirst sep l).
Proof.
  induction l as [|c l [IH1 IH2]]; simpl.
  - split; [now left | tauto].
  - destruct (Ascii.eqb c sep) eqn:E.
    + apply Ascii.eqb_eq in E; subst c. split; [right; now exists l | simpl; tauto].
    + apply Ascii.eqb_neq in E. split.
      * destruct IH1 as [IH1 | (rest & IH1)].
        -- left. now f_equal.
        -- right. exists rest. simpl. now f_equal.
      * simpl. intros [H | H]; [congruence | tauto].
Qed.

Lemma string_of_app (a b : list ascii) :
  string_of_list_ascii (a ++ b) = string_of_list_ascii a +:+ string_of_list_ascii b.
Proof. induction a as [|c a IH]; simpl; [reflexivity | now rewrite IH]. Qed.

End GoStringsFacts.

(** ** Running computations *)

Lemma bind_Done {A B : Type} (m : M A) (k : A -> M B) (p p' : Program) (a : A) :
  m p = (Done a, p') -> bind m k p = k a p'.
Proof. intros H. unfold bind. now rewrite H. Qed.

Lemma defer_state {A : Type} (d : Program -> Program) (m : M A) (p : Program) :
  snd (defer d m p) = d (snd (m p)).
Proof. unfold defer. now destruct (m p). Qed.

Lemma eqb_empty_false (s : string) : s <> "" -> String.eqb s "" = false.
Proof. intros H. now apply String.eqb_neq. Qed.

Lemma AddImport_in (path : string) (p : Program) :
  In path (imports (snd (AddImport path p))).
Proof.
  unfold AddImport, modify. cbn [snd].
  destruct (existsb (String.eqb path) (imports p)) eqn:X.
  - apply existsb_exists in X as (x & Hx & Hx').
    apply String.eqb_eq in Hx'. now subst x.
  - cbn [imports setImports]. apply in_or_app. right. now left.
Qed.

Lemma AddImport_messages (path : string) (p : Program) :
  messages (snd (AddImport path p)) = messages p.
Proof.
  unfold AddImport, modify. cbn [snd].
  now destruct (existsb (String.eqb path) (imports p)).
Qed.

Ltac unfold_go :=
  unfold GetFunctionDefinition, AddFunctionDefinition, deref, call, defer,
    bind, ret, gets, modify, panic in *.

(** ** Return statements *)

Section ReturnStatements.

Variable transpileToExpr :
  ast.Node ->
  M (goast.Expr * string * list goast.Stmt * list goast.Stmt * option error).
Variable CastExpr :
  goast.Expr -> string -> string -> M (goast.Expr * option error).

#[local] Abbreviation lowerReturn := (transpileReturnStmt transpileToExpr CastExpr).

(** C7: a return node without a child expression is lowered, in any
    function and in [main] too, to a bare return statement: no result
    values, no statements before or after it, no error, and [p] is left as
    it was. *)
Theorem bare_return (n : ast.ReturnStmt.t) (p : Program) :
  ast.ReturnStmt.Children n = [] ->
  lowerReturn n p = (Done (Some (goast.ReturnStmt []), [], [], None), p).
Proof.
  intros H. unfold transpileReturnStmt. rewrite H. reflexivity.
Qed.

(** The lowering of expressions and the construction of casts leave
    [p.Function] alone. *)
Hypothesis expr_keeps_function :
  forall c p, Function (snd (transpileToExpr c p)) = Function p.
Hypothesis cast_keeps_function :
  forall e from to p, Function (snd (CastExpr e from to p)) = Function p.

Lemma exitsWithStatus_false (e : goast.Expr) :
  exitsWithStatus e = false <-> exists k, e = goast.BasicLit k "0".
Proof.
  split.
  - destruct e as [| k v | | |]; cbv [exitsWithStatus negb orb andb];
      intros H; try discriminate H.
    destruct (String.eqb v "0") eqn:E; [|discriminate H].
    apply String.eqb_eq in E; subst v. now exists k.
  - intros (k & ->). reflexivity.
Qed.

(** A return statement with a child expression whose lowering succeeds, in
    a function that is registered. *)
Lemma return_with_value (n : ast.ReturnStmt.t) (child : ast.Node)
    (rest : list ast.Node) (p p1 p2 : Program) (decl : ast.FunctionDecl.t)
    (d : FunctionDefinition.t) (e t : goast.Expr) (eType : string)
    (preStmts postStmts : list goast.Stmt) (err : option error) :
  ast.ReturnStmt.Children n = child :: rest ->
  Function p = Some decl ->
  transpileToExpr child p = (Done (e, eType, preStmts, postStmts, None), p1) ->
  functionDefinitions p1 !! ast.FunctionDecl.Name decl = Some d ->
  CastExpr e eType (FunctionDefinition.ReturnType d) p1 = (Done (t, err), p2) ->
  lowerReturn n p =
    let value := returnedValue t err in
    let p3 := afterWarning err p2 in
    if String.eqb (ast.FunctionDecl.Name decl) "main" then
      if exitsWithStatus e then
        (Done (Some (goast.ExprStmt
                       (goast.CallExpr (goast.Ident "os.Exit") [value])),
               preStmts, postStmts, None),
         snd (AddImport "os" p3))
      else (Done (Some (goast.ReturnStmt []), preStmts, postStmts, None), p3)
    else (Done (Some (goast.ReturnStmt [value]), preStmts, postStmts, None), p3).
Proof.
  intros Hc Hf He Hd Hcast.
  pose proof (expr_keeps_function child p) as F1. rewrite He in F1. simpl in F1.
  pose proof (cast_keeps_function e eType (FunctionDefinition.ReturnType d) p1) as F2.
  rewrite Hcast in F2. simpl in F2.
  unfold transpileReturnStmt. rewrite Hc.
  rewrite (bind_Done _ _ _ _ _ He).
  unfold_go. rewrite F1, Hf, Hd, Hcast.
  destruct err as [er|]; simpl; rewrite F2, F1, Hf; simpl;
    (destruct (String.eqb (ast.FunctionDecl.Name decl) "main");
     [destruct (exitsWithStatus e)|]; reflexivity).
Qed.

(** C1: in [main], a return statement whose expression is lowered to a
    literal of value "0" becomes a bare return and nothing is added to the
    imports; whatever else the expression is lowered to, the statement is a
    call of [os.Exit] on the cast value alone and "os" is among the imports
    afterwards. *)
Theorem return_in_main (n : ast.ReturnStmt.t) (child : ast.Node)
    (rest : list ast.Node) (p p1 p2 : Program) (decl : ast.FunctionDecl.t)
    (d : FunctionDefinition.t) (e t : goast.Expr) (eType : string)
    (preStmts postStmts : list goast.Stmt) (err : option error) :
  ast.ReturnStmt.Children n = child :: rest ->
  Function p = Some decl ->
  ast.FunctionDecl.Name decl = "main" ->
  transpileToExpr child p = (Done (e, eType, preStmts, postStmts, None), p1) ->
  functionDefinitions p1 !! "main" = Some d ->
  CastExpr e eType (FunctionDefinition.ReturnType d) p1 = (Done (t, err), p2) ->
  ((exists k, e = goast.BasicLit k "0") ->
   exists p3,
     lowerReturn n p =
       (Done (Some (goast.ReturnStmt []), preStmts, postStmts, None), p3) /\
     imports p3 = imports p2) /\
  ((forall k, e <> goast.BasicLit k "0") ->
   exists value p3,
     lowerReturn n p =
       (Done (Some (goast.ExprStmt
                      (goast.CallExpr (goast.Ident "os.Exit") [value])),
              preStmts, postStmts, None), p3) /\
     (err = None -> value = t) /\
     In "os" (imports p3)).
Proof.
  intros Hc Hf Hmain He Hd Hcast. rewrite <- Hmain in Hd.
  rewrite (return_with_value _ _ _ _ _ _ _ _ _ _ _ _ _ _ Hc Hf He Hd Hcast).
  rewrite Hmain. simpl. split.
  - intros Hlit. apply exitsWithStatus_false in Hlit. rewrite Hlit.
    eexists. split; [reflexivity|]. destruct err; reflexivity.
  - intros Hnot. destruct (exitsWithStatus e) eqn:E.
    + eexists _, _. split; [reflexivity|]. split; [now intros ->|].
      apply AddImport_in.
    + apply exitsWithStatus_false in E as (k & ->). now destruct (Hnot k).
Qed.

(** C6: when the cast of the returned expression to the declared return
    type fails, the lowering of the return statement returns no error: the
    failure is recorded as a warning and the literal [nil] stands for the
    cast value, in the return statement of any function but [main] and in
    the call of [os.Exit] in [main] (where a literal "0" is a bare return
    whatever the cast). *)
Theorem uncastable_return (n : ast.ReturnStmt.t) (child : ast.Node)
    (rest : list ast.Node) (p p1 p2 : Program) (decl : ast.FunctionDecl.t)
    (d : FunctionDefinition.t) (e t : goast.Expr) (eType : string)
    (preStmts postStmts : list goast.Stmt) (er : error) :
  ast.ReturnStmt.Children n = child :: rest ->
  Function p = Some decl ->
  transpileToExpr child p = (Done (e, eType, preStmts, postStmts, None), p1) ->
  functionDefinitions p1 !! ast.FunctionDecl.Name decl = Some d ->
  CastExpr e eType (FunctionDefinition.ReturnType d) p1 = (Done (t, Some er), p2) ->
  exists stmt p3 warning,
    lowerReturn n p = (Done (Some stmt, preStmts, postStmts, None), p3) /\
    warning <> "" /\
    (exists prefix, warning = prefix +:+ Error er) /\
    messages p3 = messages p2 ++ [warning] /\
    (ast.FunctionDecl.Name decl <> "main" ->
     stmt = goast.ReturnStmt [goast.BasicLit token.STRING "nil"]) /\
    (ast.FunctionDecl.Name decl = "main" -> (forall k, e <> goast.BasicLit k "0") ->
     stmt = goast.ExprStmt
              (goast.CallExpr (goast.Ident "os.Exit")
                 [goast.BasicLit token.STRING "nil"])) /\
    (ast.FunctionDecl.Name decl = "main" -> (exists k, e = goast.BasicLit k "0") ->
     stmt = goast.ReturnStmt []).
Proof.
  intros Hc Hf He Hd Hcast.
  rewrite (return_with_value _ _ _ _ _ _ _ _ _ _ _ _ _ _ Hc Hf He Hd Hcast).
  cbv zeta. cbn [returnedValue afterWarning].
  destruct (String.eqb (ast.FunctionDecl.Name decl) "main") eqn:Em;
    [apply String.eqb_eq in Em | apply String.eqb_neq in Em].
  - destruct (exitsWithStatus e) eqn:E.
    + eexists _, _, (GenerateWarningMessage (Some er) "ReturnStmt").
      split; [reflexivity|].
      split; [discriminate|].
      split; [now exists "// Warning (ReturnStmt): "|].
      split; [now rewrite AddImport_messages|].
      split; [congruence|]. split; [reflexivity|].
      intros _ Hlit. apply exitsWithStatus_false in Hlit. congruence.
    + eexists _, _, (GenerateWarningMessage (Some er) "ReturnStmt").
      split; [reflexivity|].
      split; [discriminate|].
      split; [now exists "// Warning (ReturnStmt): "|].
      split; [reflexivity|].
      split; [congruence|]. split; [|reflexivity].
      intros _ Hnot. apply exitsWithStatus_false in E as (k & ->).
      now destruct (Hnot k).
  - eexists _, _, (GenerateWarningMessage (Some er) "ReturnStmt").
      split; [reflexivity|].
    split; [discriminate|].
      split; [now exists "// Warning (ReturnStmt): "|].
    split; [reflexivity|]. split; [reflexivity|]. split; congruence.
Qed.

End ReturnStatements.

(** ** What the lowering of types leaves alone *)

Section Framing.

(** A relation between [p] before and after a computation that holds of
    doing nothing, composes, and does not look at the messages. *)
Variable R : Program -> Program -> Prop.
Hypothesis R_refl : forall p, R p p.
Hypothesis R_trans : forall p q r, R p q -> R q r -> R p r.
Hypothesis R_messages : forall ms p, R p (setMessages ms p).

Lemma preserves_ret {A : Type} (a : A) : preserves R (ret a).
Proof. intros p. apply R_refl. Qed.

Lemma preserves_bind {A B : Type} (m : M A) (k : A -> M B) :
  preserves R m -> (forall a, preserves R (k a)) -> preserves R (bind m k).
Proof.
  intros Hm Hk p. unfold bind. specialize (Hm p).
  destruct (m p) as [[a|msg] p']; cbn [snd] in *; [|assumption].
  eapply R_trans; [eassumption | apply Hk].
Qed.

Lemma preserves_AddMessage (message : string) : preserves R (AddMessage message).
Proof.
  intros p. unfold AddMessage.
  destruct (String.eqb message ""); cbn [snd]; [apply R_refl | apply R_messages].
Qed.

Variable ResolveType : string -> M (string * option error).
Hypothesis resolve_preserves : forall ty, preserves R (ResolveType ty).

Lemma getFieldListOf_preserves (children : list ast.Node) (r : goast.FieldList) :
  preserves R (getFieldListOf ResolveType children r).
Proof.
  revert r; induction children as [|c children IH]; intros r; cbn [getFieldListOf].
  - apply preserves_ret.
  - destruct c as [name ty | cs | kind cs]; try apply IH.
    apply preserves_bind; [apply resolve_preserves|].
    intros [t err]. apply preserves_bind; [apply preserves_AddMessage|].
    intros _. apply IH.
Qed.

End Framing.

(** ** Function declarations *)

Section Declarations.

Variable transpileToBlockStmt :
  ast.Node ->
  M (option goast.BlockStmt * list goast.Stmt * list goast.Stmt * option error).
Variable ResolveType : string -> M (string * option error).

#[local] Abbreviation lowerDecl :=
  (transpileFunctionDecl transpileToBlockStmt ResolveType).

Lemma entered_lookup (n : ast.FunctionDecl.t) (d : FunctionDefinition.t)
    (p : Program) :
  signatureOf n p = Done d ->
  functionDefinitions (entered n d p) !! ast.FunctionDecl.Name n = Some d.
Proof.
  unfold signatureOf, entered.
  destruct (functionDefinitions p !! ast.FunctionDecl.Name n) as [d'|] eqn:E.
  - intros [= ->]. exact E.
  - intros _. cbn. apply lookup_insert_eq.
Qed.

(** C5: a declaration whose name is registered with a substitution yields
    no definition, with or without a body: the lowering returns no error
    and leaves [p] as it was ([p.Function] is reset), whatever the lowering
    of statements and types would do. *)
Theorem substituted_is_skipped (n : ast.FunctionDecl.t) (p : Program)
    (d : FunctionDefinition.t) :
  functionDefinitions p !! ast.FunctionDecl.Name n = Some d ->
  FunctionDefinition.Substitution d <> "" ->
  lowerDecl n p = (Done None, setFunction None p).
Proof.
  intros Hd Hs. unfold transpileFunctionDecl. unfold_go. cbn.
  rewrite Hd. cbn. rewrite Hd, (eqb_empty_false _ Hs). reflexivity.
Qed.

Lemma getFieldListOf_names (children : list ast.Node) (r fl : goast.FieldList)
    (p p' : Program) :
  getFieldListOf ResolveType children r p = (Done fl, p') ->
  map goast.Field.Names fl =
    map goast.Field.Names r ++
    map (fun name => [goast.Ident name]) (parameterNames children).
Proof.
  revert r p; induction children as [|c children IH]; intros r p;
    cbn [getFieldListOf parameterNames].
  - intros [= <- <-]. now rewrite app_nil_r.
  - destruct c as [name ty | cs | kind cs]; try apply IH.
    unfold bind at 1. destruct (ResolveType ty p) as [[[t err]|msg] q]; [|discriminate].
    unfold bind at 1. destruct (AddMessage _ q) as [[added|msg] q']; [|discriminate].
    intros H. apply IH in H. rewrite H, map_app. cbn [map].
    now rewrite <- List.app_assoc.
Qed.

(** [transpileFunctionDecl] with the state written out: every way through
    the function, up to the calls it makes, and what [p] is at each. *)
Lemma lowerDecl_unfold (n : ast.FunctionDecl.t) (p : Program) :
  lowerDecl n p =
    let name := ast.FunctionDecl.Name n in
    match signatureOf n p with
    | Panicked msg => (Panicked msg, setFunction None (setFunction (Some n) p))
    | Done d =>
        let p0 := entered n d p in
        if negb (String.eqb (FunctionDefinition.Substitution d) "") then
          (Done None, setFunction None p0)
        else
          match getFunctionBody n with
          | None => (Done None, setFunction None p0)
          | Some b =>
              match transpileToBlockStmt b p0 with
              | (Panicked msg, p1) => (Panicked msg, setFunction None p1)
              | (Done (_, _, _, Some e), p1) =>
                  (Done (Some e), setFunction None p1)
              | (Done (body, _, _, None), p1) =>
                  if isIgnoredName name then (Done None, setFunction None p1)
                  else
                    match getFieldListOf ResolveType
                            (ast.FunctionDecl.Children n) [] (announced d p1) with
                    | (Panicked msg, p2) => (Panicked msg, setFunction None p2)
                    | (Done fieldList, p2) =>
                        match ResolveType (FunctionDefinition.ReturnType d) p2 with
                        | (Panicked msg, p3) => (Panicked msg, setFunction None p3)
                        | (Done (t, err), p3) =>
                            let p4 :=
                              snd (AddMessage
                                     (GenerateWarningMessage err "FunctionDecl") p3) in
                            if inMain (Function p4) then
                              match rewriteMain fieldList body p4 with
                              | (Done (params, results, body'), p5) =>
                                  (Done None,
                                   setFunction None
                                     (withDefinition name params results body' p5))
                              | (Panicked msg, p5) =>
                                  (Panicked msg, setFunction None p5)
                              end
                            else
                              (Done None,
                               setFunction None
                                 (withDefinition name fieldList
                                    [goast.Field.mk [] (goast.Ident t)] body p4))
                        end
                    end
              end
          end
    end.
Proof.
  assert (Hrun : forall err q, exists out,
            AddMessage (GenerateWarningMessage err "FunctionDecl") q =
            (Done out, snd (AddMessage (GenerateWarningMessage err "FunctionDecl") q))).
  { intros err q. unfold AddMessage. destruct (String.eqb _ ""); eexists; reflexivity. }
  assert (Hsig : exists o, signatureOf n p = o) by (eexists; reflexivity).
  destruct Hsig as (o & Hsig). rewrite Hsig.
  unfold transpileFunctionDecl, signatureOf, entered, getFieldList, announced,
    Printf in *.
  unfold_go. cbn.
  destruct (functionDefinitions p !! ast.FunctionDecl.Name n) as [d'|] eqn:E.
  - subst o. cbn. rewrite E.
    destruct (negb _); [reflexivity|].
    destruct (getFunctionBody n) as [b|]; cbn;
      [|destruct (isIgnoredName _); reflexivity].
    destruct (transpileToBlockStmt b _) as [[[[[body pre] post] [e|]]|msg] p1];
      try reflexivity.
    destruct (isIgnoredName _); [reflexivity|].
    destruct (Verbose p1); cbn;
      (destruct (getFieldListOf _ _ _ _) as [[fl|msg] p2]; cbn; [|reflexivity]);
      (destruct (ResolveType _ p2) as [[[t err]|msg] p3]; cbn; [|reflexivity]);
      destruct (Hrun err p3) as (out & ->); cbn;
      (destruct (inMain _); [|reflexivity]);
      destruct (rewriteMain _ _ _) as [[[[params results] body']|msg] p5];
      reflexivity.
  - destruct (getFunctionReturnType (ast.FunctionDecl.Type' n)) as [rt|msg];
      subst o; [|reflexivity].
    cbn. rewrite lookup_insert_eq. cbn.
    destruct (getFunctionBody n) as [b|]; cbn;
      [|destruct (isIgnoredName _); reflexivity].
    destruct (transpileToBlockStmt b _) as [[[[[body pre] post] [e|]]|msg] p1];
      try reflexivity.
    destruct (isIgnoredName _); [reflexivity|].
    destruct (Verbose p1); cbn;
      (destruct (getFieldListOf _ _ _ _) as [[fl|msg] p2]; cbn; [|reflexivity]);
      (destruct (ResolveType _ p2) as [[[t err]|msg] p3]; cbn; [|reflexivity]);
      destruct (Hrun err p3) as (out & ->); cbn;
      (destruct (inMain _); [|reflexivity]);
      destruct (rewriteMain _ _ _) as [[[[params results] body']|msg] p5];
      reflexivity.
Qed.

(** The run of a declaration that has a body, a name that is not skipped
    and a signature without substitution, when the lowering of the body
    and of the types returns. *)
Lemma lowerDecl_emits (n : ast.FunctionDecl.t) (p p1 p2 p3 : Program)
    (d : FunctionDefinition.t) (b : ast.Node) (body : option goast.BlockStmt)
    (preStmts postStmts : list goast.Stmt) (fieldList : goast.FieldList)
    (t : string) (err : option error) :
  signatureOf n p = Done d ->
  FunctionDefinition.Substitution d = "" ->
  getFunctionBody n = Some b ->
  isIgnoredName (ast.FunctionDecl.Name n) = false ->
  transpileToBlockStmt b (entered n d p) =
    (Done (body, preStmts, postStmts, None), p1) ->
  getFieldListOf ResolveType (ast.FunctionDecl.Children n) [] (announced d p1) =
    (Done fieldList, p2) ->
  ResolveType (FunctionDefinition.ReturnType d) p2 = (Done (t, err), p3) ->
  lowerDecl n p =
    let name := ast.FunctionDecl.Name n in
    let p4 := snd (AddMessage (GenerateWarningMessage err "FunctionDecl") p3) in
    if inMain (Function p4) then
      match rewriteMain fieldList body p4 with
      | (Done (params, results, body'), p5) =>
          (Done None, setFunction None (withDefinition name params results body' p5))
      | (Panicked msg, p5) => (Panicked msg, setFunction None p5)
      end
    else
      (Done None,
       setFunction None
         (withDefinition name fieldList
            [goast.Field.mk [] (goast.Ident t)] body p4)).
Proof.
  intros Hsig Hsub Hb Hign Hblk Hfl Hrt.
  rewrite lowerDecl_unfold. cbv zeta.
  rewrite Hsig, Hsub, Hb, Hblk, Hign, Hfl, Hrt. reflexivity.
Qed.

(** The lowering of statements and of types leaves [p.Function] alone. *)
Hypothesis block_keeps_function :
  forall b p, Function (snd (transpileToBlockStmt b p)) = Function p.
Hypothesis resolve_keeps_function :
  forall ty p, Function (snd (ResolveType ty p)) = Function p.

Lemma fieldList_keeps_function (children : list ast.Node) (r : goast.FieldList)
    (p : Program) :
  Function (snd (getFieldListOf ResolveType children r p)) = Function p.
Proof.
  apply (getFieldListOf_preserves (fun p p' => Function p' = Function p));
    try reflexivity; try assumption.
  intros a b c H1 H2. now rewrite H2.
Qed.

Lemma entered_function (n : ast.FunctionDecl.t) (d : FunctionDefinition.t)
    (p : Program) :
  Function (entered n d p) = Some n.
Proof. unfold entered. now destruct (_ !! _). Qed.

Lemma announced_function (d : FunctionDefinition.t) (p : Program) :
  Function (announced d p) = Function p.
Proof. unfold announced. now destruct (Verbose p). Qed.

Lemma AddMessage_function (message : string) (p : Program) :
  Function (snd (AddMessage message p)) = Function p.
Proof. unfold AddMessage. now destruct (String.eqb message ""). Qed.

(** The active function is still [n] when the definition is assembled. *)
Lemma function_at_assembly (n : ast.FunctionDecl.t) (p p1 p2 p3 : Program)
    (d : FunctionDefinition.t) (b : ast.Node)
    (r : option goast.BlockStmt * list goast.Stmt * list goast.Stmt * option error)
    (fieldList : goast.FieldList) (rt : string * option error) (message : string) :
  transpileToBlockStmt b (entered n d p) = (Done r, p1) ->
  getFieldListOf ResolveType (ast.FunctionDecl.Children n) [] (announced d p1) =
    (Done fieldList, p2) ->
  ResolveType (FunctionDefinition.ReturnType d) p2 = (Done rt, p3) ->
  Function (snd (AddMessage message p3)) = Some n.
Proof.
  intros Hblk Hfl Hrt.
  rewrite AddMessage_function.
  pose proof (resolve_keeps_function (FunctionDefinition.ReturnType d) p2) as F3.
  rewrite Hrt in F3. cbn [snd] in F3. rewrite F3.
  pose proof (fieldList_keeps_function (ast.FunctionDecl.Children n) [] (announced d p1)) as F2.
  rewrite Hfl in F2. cbn [snd] in F2. rewrite F2, announced_function.
  pose proof (block_keeps_function b (entered n d p)) as F1.
  rewrite Hblk in F1. cbn [snd] in F1. rewrite F1. apply entered_function.
Qed.

(** C2: [main] with a body and at least two declared parameters is emitted
    with no parameters and no result types, and its body is the call of
    [__init], the binding of the first parameter's name to [len(os.Args)],
    the second parameter's name set to an empty [[][]byte], the loop over
    [os.Args] that appends each argument as bytes, and then the lowered
    statements of the body as they were. *)
Theorem main_with_arguments (n : ast.FunctionDecl.t) (p p1 p2 p3 : Program)
    (d : FunctionDefinition.t) (b : ast.Node) (stmts : goast.BlockStmt)
    (preStmts postStmts : list goast.Stmt) (fieldList : goast.FieldList)
    (t : string) (err : option error) (argc argv : string)
    (more : list string) :
  ast.FunctionDecl.Name n = "main" ->
  parameterNames (ast.FunctionDecl.Children n) = argc :: argv :: more ->
  getFunctionBody n = Some b ->
  signatureOf n p = Done d ->
  FunctionDefinition.Substitution d = "" ->
  transpileToBlockStmt b (entered n d p) =
    (Done (Some stmts, preStmts, postStmts, None), p1) ->
  getFieldListOf ResolveType (ast.FunctionDecl.Children n) [] (announced d p1) =
    (Done fieldList, p2) ->
  ResolveType (FunctionDefinition.ReturnType d) p2 = (Done (t, err), p3) ->
  exists p',
    lowerDecl n p = (Done None, p') /\
    Decls p' =
      Decls p3 ++
      [goast.Func
         (goast.FuncDecl.mk (goast.Ident "main") (goast.FuncType.mk [] [])
            (Some (mainPrologue argc argv ++ stmts)))].
Proof.
  intros Hmain Hnames Hb Hsig Hsub Hblk Hfl Hrt.
  assert (Hign : isIgnoredName (ast.FunctionDecl.Name n) = false)
    by now rewrite Hmain.
  rewrite (lowerDecl_emits _ _ _ _ _ _ _ _ _ _ _ _ _ Hsig Hsub Hb Hign Hblk Hfl Hrt).
  cbv zeta.
  rewrite (function_at_assembly _ _ _ _ _ _ _ _ _ _ _ Hblk Hfl Hrt).
  cbn [inMain]. rewrite Hmain. cbn [String.eqb Ascii.eqb Bool.eqb].
  apply getFieldListOf_names in Hfl. rewrite Hnames in Hfl. cbn [map app] in Hfl.
  destruct fieldList as [|[names0 ty0] [|[names1 ty1] fl]]; try discriminate.
  cbn [map goast.Field.Names] in Hfl. injection Hfl as -> -> _.
  unfold rewriteMain, index. cbn.
  eexists. split; [reflexivity|].
  unfold withDefinition. cbn [Decls setDecls setFunction].
  unfold AddImport, AddMessage.
  destruct (String.eqb (GenerateWarningMessage err "FunctionDecl") "");
    cbn [snd]; destruct (existsb _ _); reflexivity.
Qed.

Lemma rewriteMain_state (fieldList : goast.FieldList)
    (body : option goast.BlockStmt) (p : Program) :
  snd (rewriteMain fieldList body p) = p \/
  snd (rewriteMain fieldList body p) = snd (AddImport "os" p).
Proof.
  unfold rewriteMain, index.
  destruct fieldList as [|[[|argc names0] ty0] [|[[|argv names1] ty1] fl]];
    destruct body as [stmts|]; cbn; auto.
Qed.

Lemma rewriteMain_Done (fieldList params results : goast.FieldList)
    (body body' : option goast.BlockStmt) (p p' : Program) :
  rewriteMain fieldList body p = (Done (params, results, body'), p') ->
  params = [] /\ results = [].
Proof.
  unfold rewriteMain, index.
  destruct fieldList as [|[[|argc names0] ty0] [|[[|argv names1] ty1] fl]];
    destruct body as [stmts|]; cbn; intros [=]; subst; auto.
Qed.

Lemma entered_decls (n : ast.FunctionDecl.t) (d : FunctionDefinition.t)
    (p : Program) :
  Decls (entered n d p) = Decls p.
Proof. unfold entered. now destruct (_ !! _). Qed.

Lemma announced_decls (d : FunctionDefinition.t) (p : Program) :
  Decls (announced d p) = Decls p.
Proof. unfold announced. now destruct (Verbose p). Qed.

Lemma AddMessage_decls (message : string) (p : Program) :
  Decls (snd (AddMessage message p)) = Decls p.
Proof. unfold AddMessage. now destruct (String.eqb message ""). Qed.

Lemma AddImport_decls (path : string) (p : Program) :
  Decls (snd (AddImport path p)) = Decls p.
Proof. unfold AddImport, modify. cbn [snd]. now destruct (existsb _ _). Qed.

Lemma rewriteMain_decls (fieldList : goast.FieldList)
    (body : option goast.BlockStmt) (p : Program) :
  Decls (snd (rewriteMain fieldList body p)) = Decls p.
Proof.
  destruct (rewriteMain_state fieldList body p) as [-> | ->];
    [reflexivity | apply AddImport_decls].
Qed.

(** C3, as the code has it: for a declaration with a body whose name is
    one of the skipped names, the body is lowered before the name is
    looked at.  The lowering of the declaration returns what the lowering
    of the body returns as its error, an error or none, and leaves [p] as
    the lowering of the body left it: it assembles no definition and
    records nothing itself.  With a substitution registered for the name
    the body is not even lowered. *)
Theorem ignored_name (n : ast.FunctionDecl.t) (p : Program)
    (d : FunctionDefinition.t) (b : ast.Node) :
  isIgnoredName (ast.FunctionDecl.Name n) = true ->
  getFunctionBody n = Some b ->
  signatureOf n p = Done d ->
  (FunctionDefinition.Substitution d <> "" ->
   lowerDecl n p = (Done None, setFunction None (entered n d p))) /\
  (FunctionDefinition.Substitution d = "" ->
   forall body preStmts postStmts err p1,
     transpileToBlockStmt b (entered n d p) =
       (Done (body, preStmts, postStmts, err), p1) ->
     lowerDecl n p = (Done err, setFunction None p1)).
Proof.
  intros Hign Hb Hsig. rewrite lowerDecl_unfold. cbv zeta. rewrite Hsig. split.
  - intros Hs. now rewrite (eqb_empty_false _ Hs).
  - intros Hs body pre post err p1 Hblk.
    rewrite Hs, Hb, Hblk, Hign. cbn. now destruct err.
Qed.

(** C8: the return type of a prototype is what stands before its first
    "(" without the white space around it.  When nothing is left the
    extraction panics; the panic goes through the lowering of the
    declaration being registered, and neither a warning nor a signature is
    recorded. *)
Theorem return_type_extraction (f : string) :
  exists before ty l r,
    (f = before \/ exists rest, f = before +:+ "(" +:+ rest) /\
    ~ In "("%char (list_ascii_of_string before) /\
    before = l +:+ ty +:+ r /\
    whiteSpace l /\ whiteSpace r /\ noSpaceAtEnds ty /\
    (ty <> "" -> getFunctionReturnType f = Done ty) /\
    (ty = "" ->
     exists msg,
       getFunctionReturnType f = Panicked msg /\
       forall n p,
         ast.FunctionDecl.Type' n = f ->
         functionDefinitions p !! ast.FunctionDecl.Name n = None ->
         lowerDecl n p = (Panicked msg, setFunction None p)).
Proof.
  set (bf := beforeFirst "(" (list_ascii_of_string f)).
  destruct (GoStringsFacts.TrimSpaceBytes_spec bf) as (sp1 & sp2 & H1 & H2 & E & N1 & N2).
  exists (string_of_list_ascii bf), (string_of_list_ascii (TrimSpaceBytes bf)),
    (string_of_list_ascii sp1), (string_of_list_ascii sp2).
  assert (Hty : TrimSpace (SplitFirst f "(") = string_of_list_ascii (TrimSpaceBytes bf)).
  { unfold TrimSpace, SplitFirst. now rewrite list_ascii_of_string_of_list_ascii. }
  split.
  { destruct (GoStringsFacts.beforeFirst_spec "(" (list_ascii_of_string f)) as [[Hf | (rest & Hf)] _].
    - left. fold bf in Hf. rewrite <- Hf. now rewrite string_of_list_ascii_of_string.
    - right. exists (string_of_list_ascii rest). fold bf in Hf.
      rewrite <- (string_of_list_ascii_of_string f), Hf.
      now rewrite GoStringsFacts.string_of_app. }
  split.
  { rewrite list_ascii_of_string_of_list_ascii.
    apply (GoStringsFacts.beforeFirst_spec "(" (list_ascii_of_string f)). }
  split.
  { rewrite <- !GoStringsFacts.string_of_app. now rewrite <- E. }
  unfold whiteSpace, noSpaceAtEnds.
  rewrite !list_ascii_of_string_of_list_ascii.
  do 3 (split; [tauto|]).
  unfold getFunctionReturnType. rewrite Hty. split.
  - intros Hne. now rewrite (eqb_empty_false _ Hne).
  - intros Hemp. rewrite Hemp in *. eexists. split; [reflexivity|].
    intros n p Hn Hnone. rewrite lowerDecl_unfold. cbv zeta.
    unfold signatureOf, getFunctionReturnType. rewrite Hnone, Hn, Hty.
    reflexivity.
Qed.

End Declarations.

(** ** The registry *)

Section RegistryFraming.

(** A relation between [p] before and after that only looks at the
    registry of [p] after. *)
Variable R : Program -> Program -> Prop.
Hypothesis R_refl : forall p, R p p.
Hypothesis R_trans : forall p q r, R p q -> R q r -> R p r.
Hypothesis R_registry :
  forall p q q',
    functionDefinitions q' = functionDefinitions q -> R p q -> R p q'.

Variable transpileToBlockStmt :
  ast.Node ->
  M (option goast.BlockStmt * list goast.Stmt * list goast.Stmt * option error).
Variable ResolveType : string -> M (string * option error).
Hypothesis block_preserves : forall b p, R p (snd (transpileToBlockStmt b p)).
Hypothesis resolve_preserves : forall ty p, R p (snd (ResolveType ty p)).

Lemma AddMessage_registry (message : string) (p : Program) :
  functionDefinitions (snd (AddMessage message p)) = functionDefinitions p.
Proof. unfold AddMessage. now destruct (String.eqb message ""). Qed.

Lemma rewriteMain_registry (fieldList : goast.FieldList)
    (body : option goast.BlockStmt) (p : Program) :
  functionDefinitions (snd (rewriteMain fieldList body p)) = functionDefinitions p.
Proof.
  destruct (rewriteMain_state fieldList body p) as [-> | ->]; [reflexivity|].
  unfold AddImport, modify. cbn [snd]. now destruct (existsb _ _).
Qed.

Lemma announced_registry (d : FunctionDefinition.t) (p : Program) :
  functionDefinitions (announced d p) = functionDefinitions p.
Proof. unfold announced. now destruct (Verbose p). Qed.

(** From line 71 to the end the registry changes as the lowering of
    statements and types changes it, and not otherwise. *)
Lemma lowerDecl_from_entered (n : ast.FunctionDecl.t) (p : Program)
    (d : FunctionDefinition.t) :
  signatureOf n p = Done d ->
  R (entered n d p)
    (snd (transpileFunctionDecl transpileToBlockStmt ResolveType n p)).
Proof.
  intros Hsig. rewrite lowerDecl_unfold. cbv zeta. rewrite Hsig.
  assert (same : forall q q', functionDefinitions q' = functionDefinitions q ->
                              R q q').
  { intros q q' H. apply (R_registry q q q' H), R_refl. }
  destruct (negb _); [now apply same|].
  destruct (getFunctionBody n) as [b|]; [|now apply same].
  pose proof (block_preserves b (entered n d p)) as K1.
  destruct (transpileToBlockStmt b _) as [r p1]. cbn [snd] in K1.
  assert (K1' : R (entered n d p) (setFunction None p1))
    by now apply (R_registry _ p1).
  destruct r as [[[[body pre] post] [e|]]|msg]; try exact K1'.
  destruct (isIgnoredName _); [exact K1'|].
  pose proof (getFieldListOf_preserves R R_refl R_trans
                (fun ms q => same q (setMessages ms q) eq_refl)
                ResolveType resolve_preserves
                (ast.FunctionDecl.Children n) [] (announced d p1)) as K2.
  destruct (getFieldListOf _ _ _ _) as [r p2]. cbn [snd] in K2.
  assert (K2' : R (entered n d p) p2).
  { apply (R_trans _ p1); [assumption|].
    apply (R_trans _ (announced d p1)); [|assumption].
    apply same, announced_registry. }
  destruct r as [fieldList|msg]; [|now apply (R_registry _ p2)].
  pose proof (resolve_preserves (FunctionDefinition.ReturnType d) p2) as K3.
  destruct (ResolveType _ p2) as [r p3]. cbn [snd] in K3.
  assert (K3' : R (entered n d p) p3) by now apply (R_trans _ p2).
  destruct r as [[t err]|msg]; [|now apply (R_registry _ p3)].
  set (p4 := snd (AddMessage (GenerateWarningMessage err "FunctionDecl") p3)).
  assert (K4 : R (entered n d p) p4)
    by (apply (R_registry _ p3); [apply AddMessage_registry | assumption]).
  destruct (inMain _); [|now apply (R_registry _ p4)].
  pose proof (rewriteMain_registry fieldList body p4) as K5.
  destruct (rewriteMain fieldList body p4) as [r p5]. cbn [snd] in K5.
  assert (K5' : R (entered n d p) p5) by now apply (R_registry _ p4).
  destruct r as [[[params results] body']|msg]; now apply (R_registry _ p5).
Qed.

End RegistryFraming.

Lemma keepsRegistered_refl (p : Program) : keepsRegistered p p.
Proof. now intros name d. Qed.

Lemma keepsRegistered_trans (p q r : Program) :
  keepsRegistered p q -> keepsRegistered q r -> keepsRegistered p r.
Proof. intros H1 H2 name d H. now apply H2, H1. Qed.

Lemma keepsRegistered_registry (p q q' : Program) :
  functionDefinitions q' = functionDefinitions q ->
  keepsRegistered p q -> keepsRegistered p q'.
Proof. intros E H name d Hp. rewrite E. now apply H. Qed.

(** Lines 60 to 67 insert under a name that has no signature yet. *)
Lemma entered_keepsRegistered (n : ast.FunctionDecl.t)
    (d : FunctionDefinition.t) (p : Program) :
  keepsRegistered p (entered n d p).
Proof.
  intros name d' H. unfold entered.
  destruct (functionDefinitions p !! ast.FunctionDecl.Name n) eqn:E; [exact H|].
  cbn. rewrite lookup_insert_ne; [exact H | congruence].
Qed.

Lemma entered_registered (n : ast.FunctionDecl.t) (d d' : FunctionDefinition.t)
    (p : Program) :
  functionDefinitions p !! ast.FunctionDecl.Name n = Some d' ->
  functionDefinitions (entered n d p) = functionDefinitions p.
Proof. intros H. unfold entered. now rewrite H. Qed.

Section Registry.

Variable transpileToBlockStmt :
  ast.Node ->
  M (option goast.BlockStmt * list goast.Stmt * list goast.Stmt * option error).
Variable ResolveType : string -> M (string * option error).

#[local] Abbreviation lowerDecl :=
  (transpileFunctionDecl transpileToBlockStmt ResolveType).

(** The lowering of statements and of types may register signatures, but
    does not replace or remove one. *)
Hypothesis block_keeps_registered :
  forall b p, keepsRegistered p (snd (transpileToBlockStmt b p)).
Hypothesis resolve_keeps_registered :
  forall ty p, keepsRegistered p (snd (ResolveType ty p)).

Lemma lowerDecl_keepsRegistered (n : ast.FunctionDecl.t) (p : Program) :
  keepsRegistered p (snd (lowerDecl n p)).
Proof.
  destruct (signatureOf n p) as [d|msg] eqn:Hsig.
  - apply (keepsRegistered_trans _ (entered n d p));
      [apply entered_keepsRegistered|].
    now apply (lowerDecl_from_entered keepsRegistered keepsRegistered_refl
                 keepsRegistered_trans keepsRegistered_registry).
  - rewrite lowerDecl_unfold. cbv zeta. rewrite Hsig. now intros name d.
Qed.

Lemma lowers_keepsRegistered (p p' : Program) :
  rtc (lowers transpileToBlockStmt ResolveType) p p' -> keepsRegistered p p'.
Proof.
  induction 1 as [p | p q r (n & ->) _ IH]; [apply keepsRegistered_refl|].
  eapply keepsRegistered_trans; [apply lowerDecl_keepsRegistered | exact IH].
Qed.

(** C4: the first registration under a name wins.  A signature that is
    registered is what the lookup of its name returns after any sequence
    of declaration lowerings; the signature that the lowering of a
    declaration finds or registers for its name is what the lookup returns
    after this lowering and any later ones; and the lowering of a
    declaration whose name is registered changes nothing in the registry
    when the lowering of statements and types does not. *)
Theorem first_registration_wins :
  (forall p p' name d,
     functionDefinitions p !! name = Some d ->
     rtc (lowers transpileToBlockStmt ResolveType) p p' ->
     functionDefinitions p' !! name = Some d) /\
  (forall n p p' d,
     signatureOf n p = Done d ->
     rtc (lowers transpileToBlockStmt ResolveType) (snd (lowerDecl n p)) p' ->
     functionDefinitions p' !! ast.FunctionDecl.Name n = Some d) /\
  ((forall b q, functionDefinitions (snd (transpileToBlockStmt b q)) =
                functionDefinitions q) ->
   (forall ty q, functionDefinitions (snd (ResolveType ty q)) =
                 functionDefinitions q) ->
   forall n p d,
     functionDefinitions p !! ast.FunctionDecl.Name n = Some d ->
     functionDefinitions (snd (lowerDecl n p)) = functionDefinitions p).
Proof.
  split; [|split].
  - intros p p' name d H Hrtc. now apply (lowers_keepsRegistered p p').
  - intros n p p' d Hsig Hrtc.
    apply (lowers_keepsRegistered _ _ Hrtc).
    apply (lowerDecl_from_entered keepsRegistered keepsRegistered_refl
             keepsRegistered_trans keepsRegistered_registry
             transpileToBlockStmt ResolveType
             block_keeps_registered resolve_keeps_registered n p d Hsig).
    now apply entered_lookup.
  - intros Hblk Hrt n p d H.
    assert (Hsig : signatureOf n p = Done d) by (unfold signatureOf; now rewrite H).
    rewrite <- (entered_registered n d d p H).
    apply (lowerDecl_from_entered
             (fun q q' => functionDefinitions q' = functionDefinitions q));
      try assumption; try reflexivity; intros; congruence.
Qed.

End Registry.

(** ** Sample runs *)

Lemma bare_return_witness :
  transpileReturnStmt lowerExprOne castSame bareReturn inMainProgram =
    (Done (Some (goast.ReturnStmt []), [], [], None), inMainProgram).
Proof. apply (bare_return lowerExprOne castSame bareReturn). reflexivity. Defined.

Lemma return_in_main_witness :
  exists value p3,
    transpileReturnStmt lowerExprOne castSame returnOne inMainProgram =
      (Done (Some (goast.ExprStmt
                     (goast.CallExpr (goast.Ident "os.Exit") [value])),
             [], [], None), p3) /\
    (@None error = None -> value = goast.BasicLit token.INT "1") /\
    In "os" (imports p3).
Proof.
  apply (return_in_main lowerExprOne castSame
           (fun _ _ => eq_refl) (fun _ _ _ _ => eq_refl)
           returnOne (ast.OtherNode "IntegerLiteral" []) [] inMainProgram
           inMainProgram inMainProgram mainDecl mainSignature
           (goast.BasicLit token.INT "1") (goast.BasicLit token.INT "1") "int"
           [] [] None);
    try reflexivity.
  intros k. discriminate.
Defined.

Lemma uncastable_return_witness :
  exists stmt p3 warning,
    transpileReturnStmt lowerExprOne castFails returnOne inMainProgram =
      (Done (Some stmt, [], [], None), p3) /\
    warning <> "" /\
    (exists prefix, warning = prefix +:+ "cannot cast") /\
    messages p3 = messages inMainProgram ++ [warning] /\
    (ast.FunctionDecl.Name mainDecl <> "main" ->
     stmt = goast.ReturnStmt [goast.BasicLit token.STRING "nil"]) /\
    (ast.FunctionDecl.Name mainDecl = "main" ->
     (forall k, goast.BasicLit token.INT "1" <> goast.BasicLit k "0") ->
     stmt = goast.ExprStmt
              (goast.CallExpr (goast.Ident "os.Exit")
                 [goast.BasicLit token.STRING "nil"])) /\
    (ast.FunctionDecl.Name mainDecl = "main" ->
     (exists k, goast.BasicLit token.INT "1" = goast.BasicLit k "0") ->
     stmt = goast.ReturnStmt []).
Proof.
  apply (uncastable_return lowerExprOne castFails
           (fun _ _ => eq_refl) (fun _ _ _ _ => eq_refl)
           returnOne (ast.OtherNode "IntegerLiteral" []) [] inMainProgram
           inMainProgram inMainProgram mainDecl mainSignature
           (goast.BasicLit token.INT "1") (goast.BasicLit token.INT "1") "int"
           [] [] (mkError "cannot cast"));
    reflexivity.
Defined.

Lemma substituted_is_skipped_witness :
  transpileFunctionDecl lowerBlock resolve printfDecl withPrintf =
    (Done None, setFunction None withPrintf).
Proof.
  apply (substituted_is_skipped lowerBlock resolve printfDecl withPrintf
           printfSignature); [reflexivity | discriminate].
Defined.

Lemma main_with_arguments_witness :
  exists p',
    transpileFunctionDecl lowerBlock resolve mainDecl emptyProgram =
      (Done None, p') /\
    Decls p' =
      Decls (entered mainDecl mainSignature emptyProgram) ++
      [goast.Func
         (goast.FuncDecl.mk (goast.Ident "main") (goast.FuncType.mk [] [])
            (Some (mainPrologue "argc" "argv" ++ [goast.ReturnStmt []])))].
Proof.
  apply (main_with_arguments lowerBlock resolve
           (fun _ _ => eq_refl) (fun _ _ => eq_refl)
           mainDecl emptyProgram
           (entered mainDecl mainSignature emptyProgram)
           (entered mainDecl mainSignature emptyProgram)
           (entered mainDecl mainSignature emptyProgram)
           mainSignature (ast.CompoundStmt [ast.OtherNode "ReturnStmt" []])
           [goast.ReturnStmt []] [] []
           [goast.Field.mk [goast.Ident "argc"] (goast.Ident "int");
            goast.Field.mk [goast.Ident "argv"] (goast.Ident "char **")]
           "int" None "argc" "argv" []);
    reflexivity.
Defined.

Lemma ignored_name_witness :
  transpileFunctionDecl lowerBlock resolve istypeDecl emptyProgram =
    (Done None, setFunction None (entered istypeDecl istypeSignature emptyProgram)).
Proof.
  apply (proj2 (ignored_name lowerBlock resolve istypeDecl emptyProgram
                  istypeSignature (ast.CompoundStmt [ast.OtherNode "ReturnStmt" []])
                  eq_refl eq_refl eq_refl) eq_refl
           (Some [goast.ReturnStmt []]) [] [] None).
  reflexivity.
Defined.

(** C3 does not hold as stated: [__istype] is one of the skipped names and
    the declaration has a body, yet the error of the lowering of its body
    is returned. *)
Lemma ignored_name_counterexample :
  isIgnoredName (ast.FunctionDecl.Name istypeDecl) = true /\
  getFunctionBody istypeDecl =
    Some (ast.CompoundStmt [ast.OtherNode "ReturnStmt" []]) /\
  fst (transpileFunctionDecl failBlock resolve istypeDecl emptyProgram) =
    Done (Some (mkError "cannot transpile statement")) /\
  fst (transpileFunctionDecl failBlock resolve istypeDecl emptyProgram) <>
    Done None.
Proof. repeat split; try reflexivity. discriminate. Qed.

Lemma first_registration_wins_witness :
  functionDefinitions
    (snd (transpileFunctionDecl lowerBlock resolve squareRedeclared
            (snd (transpileFunctionDecl lowerBlock resolve squareDecl
                    emptyProgram))))
    !! "square" = Some squareSignature.
Proof.
  apply (proj1 (proj2 (first_registration_wins lowerBlock resolve
                         (fun _ _ _ _ H => H) (fun _ _ _ _ H => H)))
           squareDecl emptyProgram _ squareSignature eq_refl).
  apply rtc_once. exists squareRedeclared. reflexivity.
Defined.

Lemma return_type_extraction_witness :
  exists before ty l r,
    ("int (int)" = before \/ exists rest, "int (int)" = before +:+ "(" +:+ rest) /\
    ~ In "("%char (list_ascii_of_string before) /\
    before = l +:+ ty +:+ r /\
    whiteSpace l /\ whiteSpace r /\ noSpaceAtEnds ty /\
    (ty <> "" -> getFunctionReturnType "int (int)" = Done ty) /\
    (ty = "" ->
     exists msg,
       getFunctionReturnType "int (int)" = Panicked msg /\
       forall n p,
         ast.FunctionDecl.Type' n = "int (int)" ->
         functionDefinitions p !! ast.FunctionDecl.Name n = None ->
         transpileFunctionDecl lowerBlock resolve n p =
           (Panicked msg, setFunction None p)).
Proof. exact (return_type_extraction lowerBlock resolve "int (int)"). Defined.

(** * Further properties *)

Import MoreSamples.

(** ** The body and the parameters of a declaration *)

(** X1: [getFunctionBody] returns the first child that is a compound
    statement, and nil exactly when no child is one. *)
Theorem getFunctionBody_first (n : ast.FunctionDecl.t) :
  match getFunctionBody n with
  | None =>
      List.Forall (fun c => isCompoundStmt c = false) (ast.FunctionDecl.Children n)
  | Some b =>
      exists before after,
        ast.FunctionDecl.Children n = before ++ b :: after /\
        isCompoundStmt b = true /\
        List.Forall (fun c => isCompoundStmt c = false) before
  end.
Proof.
  unfold getFunctionBody.
  induction (ast.FunctionDecl.Children n) as [|c cs IH]; cbn [getFunctionBodyOf].
  - constructor.
  - destruct c as [name ty | body | kind sub].
    + destruct (getFunctionBodyOf cs) as [b|].
      * destruct IH as (before & after & -> & Hb & Hbefore).
        exists (ast.ParmVarDecl name ty :: before), after.
        repeat split; [assumption | now constructor].
      * now constructor.
    + exists [], cs. repeat split. constructor.
    + destruct (getFunctionBodyOf cs) as [b|].
      * destruct IH as (before & after & -> & Hb & Hbefore).
        exists (ast.OtherNode kind sub :: before), after.
        repeat split; [assumption | now constructor].
      * now constructor.
Qed.

Lemma parameterNames_parameters (children : list ast.Node) :
  parameterNames children = map fst (parameters children).
Proof.
  induction children as [|[name ty | body | kind sub] cs IH]; cbn;
    [reflexivity | now f_equal | assumption | assumption].
Qed.

Lemma argumentTypes_parameters (children : list ast.Node) :
  getArgumentTypesOf children = map snd (parameters children).
Proof.
  induction children as [|[name ty | body | kind sub] cs IH]; cbn;
    [reflexivity | now f_equal | assumption | assumption].
Qed.

Section FieldLists.

Variable ResolveType : string -> M (string * option error).

(** X2: [getFieldList] never returns an error.  When it returns, there is
    one field for each declared parameter, in order, each with the
    parameter's name as its only name, so that the parameters of the Go
    function are as many as the argument types that
    [getFunctionArgumentTypes] registers. *)
Theorem getFieldList_fields (n : ast.FunctionDecl.t) (p p' : Program)
    (fieldList : goast.FieldList) (err : option error) :
  getFieldList ResolveType n p = (Done (fieldList, err), p') ->
  err = None /\
  map goast.Field.Names fieldList =
    map (fun name => [goast.Ident name])
      (parameterNames (ast.FunctionDecl.Children n)) /\
  length fieldList = length (getFunctionArgumentTypes n).
Proof.
  unfold getFieldList, bind, ret.
  destruct (getFieldListOf ResolveType (ast.FunctionDecl.Children n) [] p)
    as [[fl|msg] q] eqn:E; [|discriminate].
  intros [= -> <- ->]. apply getFieldListOf_names in E. cbn [map app] in E.
  split; [reflexivity|]. split; [assumption|].
  unfold getFunctionArgumentTypes.
  rewrite argumentTypes_parameters, length_map.
  rewrite <- (length_map goast.Field.Names fieldList), E, length_map.
  now rewrite parameterNames_parameters, length_map.
Qed.

Lemma recorded_messages (ws : list string) (p : Program) :
  messages (recorded ws p) = messages p ++ ws.
Proof.
  unfold recorded. revert p; induction ws as [|w ws IH]; intros p; cbn.
  - now rewrite app_nil_r.
  - rewrite IH. cbn. now rewrite <- List.app_assoc.
Qed.

Lemma recorded_others (ws : list string) (p : Program) :
  Function (recorded ws p) = Function p /\
  imports (recorded ws p) = imports p /\
  Decls (recorded ws p) = Decls p /\
  functionDefinitions (recorded ws p) = functionDefinitions p /\
  stdout (recorded ws p) = stdout p.
Proof.
  unfold recorded. revert p; induction ws as [|w ws IH]; intros p; cbn.
  - repeat split.
  - destruct (IH (setMessages (messages p ++ [w]) p)) as (H1 & H2 & H3 & H4 & H5).
    now rewrite H1, H2, H3, H4, H5.
Qed.

(** The types resolve to what [resolve] says, whatever [p] is, and
    resolving them leaves [p] alone. *)
Variable resolve : string -> string * option error.
Hypothesis resolve_pure : forall ty p, ResolveType ty p = (Done (resolve ty), p).

Lemma AddMessage_warning (e : error) (kind : string) (p : Program) :
  AddMessage (GenerateWarningMessage (Some e) kind) p =
    (Done true,
     setMessages (messages p ++ [GenerateWarningMessage (Some e) kind]) p).
Proof. reflexivity. Qed.

Lemma AddMessage_nothing (kind : string) (p : Program) :
  AddMessage (GenerateWarningMessage None kind) p = (Done false, p).
Proof. reflexivity. Qed.

Lemma getFieldListOf_pure (children : list ast.Node) (r : goast.FieldList)
    (p : Program) :
  getFieldListOf ResolveType children r p =
    (Done (r ++ map (fun '(name, ty) => fieldOf name (fst (resolve ty)))
                  (parameters children)),
     recorded (warningsOf resolve (parameters children)) p).
Proof.
  revert r p; induction children as [|c cs IH]; intros r p;
    cbn [getFieldListOf parameters].
  - cbn. now rewrite app_nil_r.
  - destruct c as [name ty | body | kind sub]; try apply IH.
    unfold bind at 1. rewrite resolve_pure.
    cbn [map warningsOf].
    destruct (resolve ty) as [t [e|]]; cbn [fst snd]; unfold bind at 1.
    + rewrite AddMessage_warning, IH. unfold recorded. cbn [fold_left].
      now rewrite <- List.app_assoc.
    + rewrite AddMessage_nothing, IH. now rewrite <- List.app_assoc.
Qed.

(** X3: a parameter whose type does not resolve is kept, with the type that
    the resolution falls back to, and costs one warning: the fields are the
    parameters in order with their resolved types, and the messages grow by
    the warnings of the failed resolutions, in the order of the parameters;
    nothing else of [p] changes. *)
Theorem getFieldList_warnings (n : ast.FunctionDecl.t) (p : Program) :
  exists p',
    getFieldList ResolveType n p =
      (Done (map (fun '(name, ty) => fieldOf name (fst (resolve ty)))
               (parameters (ast.FunctionDecl.Children n)), None), p') /\
    messages p' =
      messages p ++ warningsOf resolve (parameters (ast.FunctionDecl.Children n)) /\
    imports p' = imports p /\ Decls p' = Decls p /\
    functionDefinitions p' = functionDefinitions p.
Proof.
  eexists. unfold getFieldList, bind. rewrite getFieldListOf_pure. cbn [app ret].
  split; [reflexivity|]. rewrite recorded_messages.
  destruct (recorded_others
              (warningsOf resolve (parameters (ast.FunctionDecl.Children n))) p)
    as (_ & H2 & H3 & H4 & _).
  now rewrite H2, H3, H4.
Qed.

End FieldLists.

(** ** The return type, again *)

Lemma trimLoop_fixed (ps : list (list ascii)) (fuel : nat) (l : list ascii) :
  stripAny ps l = None -> trimLoop ps fuel l = l.
Proof. intros H. destruct fuel; cbn; [reflexivity | now rewrite H]. Qed.

Lemma TrimSpaceBytes_fixed (l : list ascii) :
  stripAny spaceRunes l = None ->
  stripAny (map (@rev ascii) spaceRunes) (rev l) = None ->
  TrimSpaceBytes l = l.
Proof.
  intros H1 H2. unfold TrimSpaceBytes, trimRight, trimLeft.
  rewrite (trimLoop_fixed _ _ _ H1), (trimLoop_fixed _ _ _ H2).
  apply rev_involutive.
Qed.

Lemma beforeFirst_fixed (sep : ascii) (l : list ascii) :
  ~ In sep l -> beforeFirst sep l = l.
Proof.
  induction l as [|c l IH]; cbn; [reflexivity|]. intros H.
  destruct (Ascii.eqb c sep) eqn:E.
  - apply Ascii.eqb_eq in E. tauto.
  - f_equal. tauto.
Qed.

(** X15: the return type that [getFunctionReturnType] extracts is a return
    type by itself: it holds no "(" and no white space at its ends, so
    extracting from it gives it back. *)
Theorem getFunctionReturnType_stable (f ty : string) :
  getFunctionReturnType f = Done ty ->
  getFunctionReturnType ty = Done ty.
Proof.
  unfold getFunctionReturnType.
  destruct (String.eqb (TrimSpace (SplitFirst f "(")) "") eqn:E; [discriminate|].
  intros [= <-].
  set (bf := beforeFirst "(" (list_ascii_of_string f)).
  assert (Hty : TrimSpace (SplitFirst f "(") =
                string_of_list_ascii (TrimSpaceBytes bf)).
  { unfold TrimSpace, SplitFirst. now rewrite list_ascii_of_string_of_list_ascii. }
  rewrite Hty in *.
  destruct (GoStringsFacts.TrimSpaceBytes_spec bf)
    as (sp1 & sp2 & _ & _ & Hbf & N1 & N2).
  assert (Hsplit : SplitFirst (string_of_list_ascii (TrimSpaceBytes bf)) "(" =
                   string_of_list_ascii (TrimSpaceBytes bf)).
  { unfold SplitFirst. rewrite list_ascii_of_string_of_list_ascii.
    f_equal. apply beforeFirst_fixed. intros Hin.
    apply (proj2 (GoStringsFacts.beforeFirst_spec "(" (list_ascii_of_string f))).
    fold bf. rewrite Hbf. apply in_or_app. right. apply in_or_app. now left. }
  rewrite Hsplit. unfold TrimSpace at 1 2.
  rewrite list_ascii_of_string_of_list_ascii, (TrimSpaceBytes_fixed _ N1 N2).
  now rewrite E.
Qed.

Lemma getFunctionReturnType_stable_witness :
  getFunctionReturnType "unsigned long" = Done "unsigned long".
Proof.
  apply (getFunctionReturnType_stable "unsigned long  (int, char **)").
  reflexivity.
Defined.

(** ** Declarations, path by path *)

Lemma entered_others (n : ast.FunctionDecl.t) (d : FunctionDefinition.t)
    (p : Program) :
  messages (entered n d p) = messages p /\
  imports (entered n d p) = imports p /\
  stdout (entered n d p) = stdout p /\
  Verbose (entered n d p) = Verbose p /\
  forall name, name <> ast.FunctionDecl.Name n ->
    functionDefinitions (entered n d p) !! name = functionDefinitions p !! name.
Proof.
  unfold entered.
  destruct (functionDefinitions p !! ast.FunctionDecl.Name n); cbn;
    repeat split; intros name Hne; now rewrite lookup_insert_ne.
Qed.

Lemma signatureOf_Panicked (n : ast.FunctionDecl.t) (p : Program) (msg : string) :
  signatureOf n p = Panicked msg ->
  functionDefinitions p !! ast.FunctionDecl.Name n = None /\
  getFunctionReturnType (ast.FunctionDecl.Type' n) = Panicked msg.
Proof.
  unfold signatureOf.
  destruct (functionDefinitions p !! ast.FunctionDecl.Name n); [discriminate|].
  destruct (getFunctionReturnType _); [discriminate|]. now intros [= ->].
Qed.

Section MoreDeclarations.

Variable transpileToBlockStmt :
  ast.Node ->
  M (option goast.BlockStmt * list goast.Stmt * list goast.Stmt * option error).
Variable ResolveType : string -> M (string * option error).

#[local] Abbreviation lowerDecl :=
  (transpileFunctionDecl transpileToBlockStmt ResolveType).

(** X4: a declaration without a body, a prototype, yields no definition
    and no error: its signature is registered under its name, the active
    function is reset, and nothing else of [p] changes; neither statements
    nor types are lowered. *)
Theorem prototype_only (n : ast.FunctionDecl.t) (p : Program)
    (d : FunctionDefinition.t) :
  getFunctionBody n = None ->
  signatureOf n p = Done d ->
  exists p',
    lowerDecl n p = (Done None, p') /\
    Function p' = None /\
    functionDefinitions p' !! ast.FunctionDecl.Name n = Some d /\
    (forall name, name <> ast.FunctionDecl.Name n ->
       functionDefinitions p' !! name = functionDefinitions p !! name) /\
    Decls p' = Decls p /\ messages p' = messages p /\
    imports p' = imports p /\ stdout p' = stdout p /\ Verbose p' = Verbose p.
Proof.
  intros Hb Hsig. exists (setFunction None (entered n d p)).
  destruct (entered_others n d p) as (H1 & H2 & H3 & H5 & H4).
  split.
  - rewrite lowerDecl_unfold. cbv zeta. rewrite Hsig, Hb.
    now destruct (negb _).
  - cbn. repeat split; try assumption.
    + now apply entered_lookup.
    + apply entered_decls.
Qed.

(** X5: an error of the lowering of the body is returned as it is, for any
    name: no definition is assembled, and [p] is what the lowering of the
    body left, with the active function reset. *)
Theorem body_error (n : ast.FunctionDecl.t) (p p1 : Program)
    (d : FunctionDefinition.t) (b : ast.Node) (body : option goast.BlockStmt)
    (preStmts postStmts : list goast.Stmt) (e : error) :
  getFunctionBody n = Some b ->
  signatureOf n p = Done d ->
  FunctionDefinition.Substitution d = "" ->
  transpileToBlockStmt b (entered n d p) =
    (Done (body, preStmts, postStmts, Some e), p1) ->
  lowerDecl n p = (Done (Some e), setFunction None p1).
Proof.
  intros Hb Hsig Hsub Hblk. rewrite lowerDecl_unfold. cbv zeta.
  now rewrite Hsig, Hsub, Hb, Hblk.
Qed.

(** X9: the lowering of a declaration has no error of its own: an error
    that it returns is the error that the lowering of its body returned. *)
Theorem error_is_body_error (n : ast.FunctionDecl.t) (p p' : Program)
    (e : error) :
  lowerDecl n p = (Done (Some e), p') ->
  exists b d body preStmts postStmts p1,
    getFunctionBody n = Some b /\
    signatureOf n p = Done d /\
    transpileToBlockStmt b (entered n d p) =
      (Done (body, preStmts, postStmts, Some e), p1) /\
    p' = setFunction None p1.
Proof.
  rewrite lowerDecl_unfold. cbv zeta.
  destruct (signatureOf n p) as [d|msg]; [|discriminate].
  destruct (negb _); [discriminate|].
  destruct (getFunctionBody n) as [b|]; [|discriminate].
  destruct (transpileToBlockStmt b _) as [[[[[body pre] post] [e'|]]|msg] p1] eqn:Hblk;
    try discriminate.
  - intros [= -> <-]. now exists b, d, body, pre, post, p1.
  - destruct (isIgnoredName _); [discriminate|].
    destruct (getFieldListOf _ _ _ _) as [[fl|msg] p2]; [|discriminate].
    destruct (ResolveType _ p2) as [[[t err]|msg] p3]; [|discriminate].
    destruct (inMain _); [|discriminate].
    destruct (rewriteMain _ _ _) as [[[[params results] body']|msg] p5];
      discriminate.
Qed.

Lemma rewriteMain_panic (fieldList : goast.FieldList)
    (body : option goast.BlockStmt) (names : list string) (p p' : Program)
    (msg : string) :
  map goast.Field.Names fieldList = map (fun name => [goast.Ident name]) names ->
  rewriteMain fieldList body p = (Panicked msg, p') ->
  body = None /\ msg = nilDereference.
Proof.
  intros Hnames. unfold rewriteMain, index.
  destruct fieldList as [|[names0 ty0] [|[names1 ty1] fl]];
    destruct names as [|argc [|argv more]]; try discriminate Hnames;
    cbn in Hnames; simplify_eq;
    destruct body as [stmts|]; cbn; intros H; simplify_eq; auto.
Qed.

End MoreDeclarations.

Lemma AddMessage_imports (message : string) (p : Program) :
  imports (snd (AddMessage message p)) = imports p.
Proof. unfold AddMessage. now destruct (String.eqb message ""). Qed.

Lemma rewriteMain_one (argc ty : goast.Expr) (stmts : goast.BlockStmt)
    (p : Program) :
  rewriteMain [goast.Field.mk [argc] ty] (Some stmts) p =
    (Done ([], [],
           Some (goast.ExprStmt (goast.CallExpr (goast.Ident "__init") [])
                 :: goast.ExprStmt
                      (goast.BinaryExpr argc token.DEFINE
                         (goast.Ident "len(os.Args)"))
                 :: stmts)),
     snd (AddImport "os" p)).
Proof. reflexivity. Qed.

Section EmittedDefinitions.

Variable transpileToBlockStmt :
  ast.Node ->
  M (option goast.BlockStmt * list goast.Stmt * list goast.Stmt * option error).
Variable ResolveType : string -> M (string * option error).

#[local] Abbreviation lowerDecl :=
  (transpileFunctionDecl transpileToBlockStmt ResolveType).

Hypothesis block_keeps_function :
  forall b p, Function (snd (transpileToBlockStmt b p)) = Function p.
Hypothesis resolve_keeps_function :
  forall ty p, Function (snd (ResolveType ty p)) = Function p.

Lemma getFieldListOf_no_parameters (children : list ast.Node)
    (r : goast.FieldList) (p : Program) :
  parameterNames children = [] ->
  getFieldListOf ResolveType children r p = (Done r, p).
Proof.
  induction children as [|[name ty | body | kind sub] cs IH]; cbn;
    [reflexivity | discriminate | assumption | assumption].
Qed.

(** X6: [main] declared without parameters is emitted with no parameters
    and no result types, and with the call of [__init] alone before the
    lowered statements of its body; the lowering imports nothing for it. *)
Theorem main_without_arguments (n : ast.FunctionDecl.t) (p p1 p3 : Program)
    (d : FunctionDefinition.t) (b : ast.Node) (stmts : goast.BlockStmt)
    (preStmts postStmts : list goast.Stmt) (t : string) (err : option error) :
  ast.FunctionDecl.Name n = "main" ->
  parameterNames (ast.FunctionDecl.Children n) = [] ->
  getFunctionBody n = Some b ->
  signatureOf n p = Done d ->
  FunctionDefinition.Substitution d = "" ->
  transpileToBlockStmt b (entered n d p) =
    (Done (Some stmts, preStmts, postStmts, None), p1) ->
  ResolveType (FunctionDefinition.ReturnType d) (announced d p1) =
    (Done (t, err), p3) ->
  exists p',
    lowerDecl n p = (Done None, p') /\
    Decls p' =
      Decls p3 ++
      [goast.Func
         (goast.FuncDecl.mk (goast.Ident "main") (goast.FuncType.mk [] [])
            (Some (goast.ExprStmt (goast.CallExpr (goast.Ident "__init") [])
                   :: stmts)))] /\
    imports p' = imports p3.
Proof.
  intros Hmain Hnames Hb Hsig Hsub Hblk Hrt.
  assert (Hign : isIgnoredName (ast.FunctionDecl.Name n) = false)
    by now rewrite Hmain.
  pose proof (getFieldListOf_no_parameters _ [] (announced d p1) Hnames) as Hfl.
  rewrite (lowerDecl_emits _ _ _ _ _ _ _ _ _ _ _ _ _ _ _ Hsig Hsub Hb Hign Hblk Hfl Hrt).
  cbv zeta.
  rewrite (function_at_assembly _ _ block_keeps_function resolve_keeps_function
             _ _ _ _ _ _ _ _ _ _ _ Hblk Hfl Hrt).
  cbn [inMain]. rewrite Hmain. cbn [String.eqb Ascii.eqb Bool.eqb].
  unfold rewriteMain. cbn.
  eexists. split; [reflexivity|].
  unfold withDefinition. cbn [Decls imports setDecls setFunction].
  now rewrite AddMessage_decls, AddMessage_imports.
Qed.

(** X7: [main] declared with one parameter is emitted with no parameters
    and no result types; the call of [__init] and the binding of the
    parameter's name to [len(os.Args)] come before the lowered statements
    of its body, and "os" is imported. *)
Theorem main_with_one_argument (n : ast.FunctionDecl.t) (p p1 p2 p3 : Program)
    (d : FunctionDefinition.t) (b : ast.Node) (stmts : goast.BlockStmt)
    (preStmts postStmts : list goast.Stmt) (fieldList : goast.FieldList)
    (t : string) (err : option error) (argc : string) :
  ast.FunctionDecl.Name n = "main" ->
  parameterNames (ast.FunctionDecl.Children n) = [argc] ->
  getFunctionBody n = Some b ->
  signatureOf n p = Done d ->
  FunctionDefinition.Substitution d = "" ->
  transpileToBlockStmt b (entered n d p) =
    (Done (Some stmts, preStmts, postStmts, None), p1) ->
  getFieldListOf ResolveType (ast.FunctionDecl.Children n) [] (announced d p1) =
    (Done fieldList, p2) ->
  ResolveType (FunctionDefinition.ReturnType d) p2 = (Done (t, err), p3) ->
  exists p',
    lowerDecl n p = (Done None, p') /\
    Decls p' =
      Decls p3 ++
      [goast.Func
         (goast.FuncDecl.mk (goast.Ident "main") (goast.FuncType.mk [] [])
            (Some (goast.ExprStmt (goast.CallExpr (goast.Ident "__init") [])
                   :: goast.ExprStmt
                        (goast.BinaryExpr (goast.Ident argc) token.DEFINE
                           (goast.Ident "len(os.Args)"))
                   :: stmts)))] /\
    In "os" (imports p').
Proof.
  intros Hmain Hnames Hb Hsig Hsub Hblk Hfl Hrt.
  assert (Hign : isIgnoredName (ast.FunctionDecl.Name n) = false)
    by now rewrite Hmain.
  rewrite (lowerDecl_emits _ _ _ _ _ _ _ _ _ _ _ _ _ _ _ Hsig Hsub Hb Hign Hblk Hfl Hrt).
  cbv zeta.
  rewrite (function_at_assembly _ _ block_keeps_function resolve_keeps_function
             _ _ _ _ _ _ _ _ _ _ _ Hblk Hfl Hrt).
  cbn [inMain]. rewrite Hmain. cbn [String.eqb Ascii.eqb Bool.eqb].
  apply getFieldListOf_names in Hfl. rewrite Hnames in Hfl. cbn [map app] in Hfl.
  destruct fieldList as [|[names0 ty0] [|f1 fl]]; try discriminate.
  cbn [map goast.Field.Names] in Hfl. injection Hfl as ->.
  rewrite rewriteMain_one.
  eexists. split; [reflexivity|].
  unfold withDefinition. cbn [Decls imports setDecls setFunction]. split.
  - now rewrite AddImport_decls, AddMessage_decls.
  - apply AddImport_in.
Qed.

(** X8: any function but [main] with a body, a name that is not skipped
    and no substitution is emitted under its name with one parameter for
    each declared parameter, in order and under its name, and with the
    lowered body as it is; the lowering imports nothing for it. *)
Theorem function_definition (n : ast.FunctionDecl.t) (p p1 p2 p3 : Program)
    (d : FunctionDefinition.t) (b : ast.Node) (body : option goast.BlockStmt)
    (preStmts postStmts : list goast.Stmt) (fieldList : goast.FieldList)
    (t : string) (err : option error) :
  ast.FunctionDecl.Name n <> "main" ->
  isIgnoredName (ast.FunctionDecl.Name n) = false ->
  getFunctionBody n = Some b ->
  signatureOf n p = Done d ->
  FunctionDefinition.Substitution d = "" ->
  transpileToBlockStmt b (entered n d p) =
    (Done (body, preStmts, postStmts, None), p1) ->
  getFieldListOf ResolveType (ast.FunctionDecl.Children n) [] (announced d p1) =
    (Done fieldList, p2) ->
  ResolveType (FunctionDefinition.ReturnType d) p2 = (Done (t, err), p3) ->
  exists p',
    lowerDecl n p = (Done None, p') /\
    Decls p' =
      Decls p3 ++
      [goast.Func
         (goast.FuncDecl.mk (goast.Ident (ast.FunctionDecl.Name n))
            (goast.FuncType.mk fieldList [goast.Field.mk [] (goast.Ident t)])
            body)] /\
    map goast.Field.Names fieldList =
      map (fun name => [goast.Ident name])
        (parameterNames (ast.FunctionDecl.Children n)) /\
    imports p' = imports p3.
Proof.
  intros Hmain Hign Hb Hsig Hsub Hblk Hfl Hrt.
  rewrite (lowerDecl_emits _ _ _ _ _ _ _ _ _ _ _ _ _ _ _ Hsig Hsub Hb Hign Hblk Hfl Hrt).
  cbv zeta.
  rewrite (function_at_assembly _ _ block_keeps_function resolve_keeps_function
             _ _ _ _ _ _ _ _ _ _ _ Hblk Hfl Hrt).
  cbn [inMain]. rewrite (proj2 (String.eqb_neq _ _) Hmain).
  eexists. split; [reflexivity|].
  unfold withDefinition. cbn [Decls imports setDecls setFunction].
  rewrite AddMessage_decls, AddMessage_imports.
  repeat split. now apply getFieldListOf_names in Hfl.
Qed.

End EmittedDefinitions.

(** ** The registry, exactly *)

Section RegistryExact.

Variable transpileToBlockStmt :
  ast.Node ->
  M (option goast.BlockStmt * list goast.Stmt * list goast.Stmt * option error).
Variable ResolveType : string -> M (string * option error).

#[local] Abbreviation lowerDecl :=
  (transpileFunctionDecl transpileToBlockStmt ResolveType).

(** The lowering of statements and of types leaves the registry alone. *)
Hypothesis block_keeps_registry :
  forall b p,
    functionDefinitions (snd (transpileToBlockStmt b p)) = functionDefinitions p.
Hypothesis resolve_keeps_registry :
  forall ty p,
    functionDefinitions (snd (ResolveType ty p)) = functionDefinitions p.

(** X11: the lowering of a declaration registers under the name of the
    declaration and under no other: afterwards the registry is the one
    before with the signature of the declaration under its name, however
    the lowering ends; when the prototype has no return type the registry
    is as before. *)
Theorem registers_one_name (n : ast.FunctionDecl.t) (p : Program) :
  (forall d,
     signatureOf n p = Done d ->
     functionDefinitions (snd (lowerDecl n p)) =
       <[ast.FunctionDecl.Name n := d]> (functionDefinitions p)) /\
  (forall msg,
     signatureOf n p = Panicked msg ->
     functionDefinitions (snd (lowerDecl n p)) = functionDefinitions p).
Proof.
  split.
  - intros d Hsig.
    rewrite (lowerDecl_from_entered
               (fun q q' => functionDefinitions q' = functionDefinitions q)
               (fun q => eq_refl)
               (fun q1 q2 q3 H1 H2 => eq_trans H2 H1)
               (fun q1 q2 q3 H1 H2 => eq_trans H1 H2)
               transpileToBlockStmt ResolveType
               block_keeps_registry resolve_keeps_registry n p d Hsig).
    unfold entered, signatureOf in *.
    destruct (functionDefinitions p !! ast.FunctionDecl.Name n) as [d'|] eqn:E;
      [|reflexivity].
    injection Hsig as ->. cbn. symmetry. now apply insert_id.
  - intros msg Hsig. rewrite lowerDecl_unfold. cbv zeta. now rewrite Hsig.
Qed.

End RegistryExact.

(** ** Forward declarations *)

Section ForwardDeclarations.

Variable transpileToBlockStmt :
  ast.Node ->
  M (option goast.BlockStmt * list goast.Stmt * list goast.Stmt * option error).
Variable ResolveType : string -> M (string * option error).

#[local] Abbreviation lowerDecl :=
  (transpileFunctionDecl transpileToBlockStmt ResolveType).

(** X18: a prototype lowered before another declaration of the same name
    and signature makes no difference to the lowering of that declaration:
    the outcome and [p] are what they are without the prototype.  So a
    forward declaration before the definition is transparent, and lowering
    a prototype twice is lowering it once. *)
Theorem forward_declaration (n1 n2 : ast.FunctionDecl.t) (p : Program)
    (d : FunctionDefinition.t) :
  getFunctionBody n1 = None ->
  ast.FunctionDecl.Name n1 = ast.FunctionDecl.Name n2 ->
  signatureOf n1 p = Done d ->
  signatureOf n2 p = Done d ->
  lowerDecl n2 (snd (lowerDecl n1 p)) = lowerDecl n2 p.
Proof.
  intros Hb Hname Hsig1 Hsig2.
  assert (H1 : lowerDecl n1 p = (Done None, setFunction None (entered n1 d p))).
  { rewrite lowerDecl_unfold. cbv zeta. rewrite Hsig1, Hb. now destruct (negb _). }
  rewrite H1. cbn [snd].
  assert (Hsig : signatureOf n2 (setFunction None (entered n1 d p)) = Done d).
  { unfold signatureOf. cbn [functionDefinitions setFunction].
    rewrite <- Hname. now rewrite (entered_lookup n1 d p Hsig1). }
  assert (Hent : entered n2 d (setFunction None (entered n1 d p)) = entered n2 d p).
  { unfold entered at 1. cbn [functionDefinitions setFunction].
    rewrite <- Hname, (entered_lookup n1 d p Hsig1).
    unfold entered. rewrite <- Hname.
    now destruct (functionDefinitions p !! ast.FunctionDecl.Name n1). }
  rewrite !lowerDecl_unfold. cbv zeta. rewrite Hsig, Hsig2. cbv beta iota.
  now rewrite Hent.
Qed.

End ForwardDeclarations.

(** ** Verbose mode *)

Section Verbose.

Variable transpileToBlockStmt :
  ast.Node ->
  M (option goast.BlockStmt * list goast.Stmt * list goast.Stmt * option error).
Variable ResolveType : string -> M (string * option error).

#[local] Abbreviation lowerDecl :=
  (transpileFunctionDecl transpileToBlockStmt ResolveType).

(** The lowering of types prints nothing. *)
Hypothesis resolve_keeps_stdout :
  forall ty p, stdout (snd (ResolveType ty p)) = stdout p.

Lemma fieldList_keeps_stdout (children : list ast.Node) (r : goast.FieldList)
    (p : Program) :
  stdout (snd (getFieldListOf ResolveType children r p)) = stdout p.
Proof.
  apply (getFieldListOf_preserves (fun p p' => stdout p' = stdout p));
    try reflexivity; try assumption.
  intros a b c H1 H2. now rewrite H2.
Qed.

Lemma rewriteMain_stdout (fieldList : goast.FieldList)
    (body : option goast.BlockStmt) (p : Program) :
  stdout (snd (rewriteMain fieldList body p)) = stdout p.
Proof.
  destruct (rewriteMain_state fieldList body p) as [-> | ->]; [reflexivity|].
  unfold AddImport, modify. cbn [snd]. now destruct (existsb _ _).
Qed.

Lemma AddMessage_stdout (message : string) (p : Program) :
  stdout (snd (AddMessage message p)) = stdout p.
Proof. unfold AddMessage. now destruct (String.eqb message ""). Qed.

Lemma announced_stdout (d : FunctionDefinition.t) (p : Program) :
  stdout (announced d p) =
    stdout p ++ (if Verbose p then [announcement d] else []).
Proof.
  unfold announced, announcement.
  destruct (Verbose p); [reflexivity | now rewrite app_nil_r].
Qed.

(** X17: a function is announced after its body has been lowered, and only
    then: once the body of a function that is neither substituted nor
    skipped is lowered without error, the lowering of the declaration
    prints, in verbose mode, the one line that names the function with the
    argument types of its registered signature, and nothing otherwise,
    however it goes on. *)
Theorem verbose_announcement (n : ast.FunctionDecl.t) (p p1 : Program)
    (d : FunctionDefinition.t) (b : ast.Node) (body : option goast.BlockStmt)
    (preStmts postStmts : list goast.Stmt) :
  isIgnoredName (ast.FunctionDecl.Name n) = false ->
  getFunctionBody n = Some b ->
  signatureOf n p = Done d ->
  FunctionDefinition.Substitution d = "" ->
  transpileToBlockStmt b (entered n d p) =
    (Done (body, preStmts, postStmts, None), p1) ->
  stdout (snd (lowerDecl n p)) =
    stdout p1 ++ (if Verbose p1 then [announcement d] else []).
Proof.
  intros Hign Hb Hsig Hsub Hblk. rewrite lowerDecl_unfold. cbv zeta.
  rewrite Hsig, Hsub, Hb, Hblk, Hign. cbn [negb String.eqb].
  rewrite <- announced_stdout.
  pose proof (fieldList_keeps_stdout (ast.FunctionDecl.Children n) []
                (announced d p1)) as K2.
  destruct (getFieldListOf _ _ _ _) as [[fieldList|msg] p2]; cbn [snd] in K2;
    [|exact K2].
  pose proof (resolve_keeps_stdout (FunctionDefinition.ReturnType d) p2) as K3.
  destruct (ResolveType _ p2) as [[[t err]|msg] p3]; cbn [snd] in K3;
    [|cbn; congruence].
  set (p4 := snd (AddMessage (GenerateWarningMessage err "FunctionDecl") p3)).
  assert (K4 : stdout p4 = stdout (announced d p1))
    by (unfold p4; rewrite AddMessage_stdout; congruence).
  destruct (inMain _); [|exact K4].
  pose proof (rewriteMain_stdout fieldList body p4) as K5.
  destruct (rewriteMain fieldList body p4) as [[[[params results] body']|msg] p5];
    cbn [snd] in K5; cbn; congruence.
Qed.

End Verbose.

(** ** Return statements, case by case *)

Section MoreReturns.

Variable transpileToExpr :
  ast.Node ->
  M (goast.Expr * string * list goast.Stmt * list goast.Stmt * option error).
Variable CastExpr :
  goast.Expr -> string -> string -> M (goast.Expr * option error).

#[local] Abbreviation lowerReturn := (transpileReturnStmt transpileToExpr CastExpr).

(** X13: when the lowering of the returned expression returns an error,
    this error is returned, with no statement and without the statements
    that the expression asked for before and after it; nothing is looked up
    and nothing is recorded. *)
Theorem return_expression_error (n : ast.ReturnStmt.t) (child : ast.Node)
    (rest : list ast.Node) (p p1 : Program) (e : goast.Expr) (eType : string)
    (preStmts postStmts : list goast.Stmt) (er : error) :
  ast.ReturnStmt.Children n = child :: rest ->
  transpileToExpr child p = (Done (e, eType, preStmts, postStmts, Some er), p1) ->
  lowerReturn n p = (Done (None, [], [], Some er), p1).
Proof.
  intros Hc He. unfold transpileReturnStmt. rewrite Hc.
  now rewrite (bind_Done _ _ _ _ _ He).
Qed.

(** X14: a return statement with an expression needs an active function
    that is registered: when [p.Function] is nil, or names a function
    without a signature, the lowering panics on a nil pointer once the
    expression has been lowered. *)
Theorem return_outside_function (n : ast.ReturnStmt.t) (child : ast.Node)
    (rest : list ast.Node) (p p1 : Program) (e : goast.Expr) (eType : string)
    (preStmts postStmts : list goast.Stmt) :
  ast.ReturnStmt.Children n = child :: rest ->
  transpileToExpr child p = (Done (e, eType, preStmts, postStmts, None), p1) ->
  Function p1 = None \/
  (exists decl,
     Function p1 = Some decl /\
     functionDefinitions p1 !! ast.FunctionDecl.Name decl = None) ->
  lowerReturn n p = (Panicked nilDereference, p1).
Proof.
  intros Hc He H. unfold transpileReturnStmt. rewrite Hc.
  rewrite (bind_Done _ _ _ _ _ He). unfold_go.
  destruct H as [-> | (decl & -> & Hd)]; [reflexivity|].
  now rewrite Hd.
Qed.

(** X16: what the lowering of a return statement with an expression
    returns as a statement is a bare return, a return of one value or a
    call of [os.Exit] on one value, never with an error, and always with
    the statements before and after it that the lowering of the expression
    asked for. *)
Theorem return_statement_shape (n : ast.ReturnStmt.t) (child : ast.Node)
    (rest : list ast.Node) (p p' : Program) (stmt : goast.Stmt)
    (preStmts postStmts : list goast.Stmt) (err : option error) :
  ast.ReturnStmt.Children n = child :: rest ->
  lowerReturn n p = (Done (Some stmt, preStmts, postStmts, err), p') ->
  err = None /\
  (exists e eType q,
     transpileToExpr child p = (Done (e, eType, preStmts, postStmts, None), q)) /\
  (stmt = goast.ReturnStmt [] \/
   exists value,
     stmt = goast.ReturnStmt [value] \/
     stmt = goast.ExprStmt (goast.CallExpr (goast.Ident "os.Exit") [value])).
Proof.
  intros Hc. unfold transpileReturnStmt. rewrite Hc. unfold bind at 1.
  destruct (transpileToExpr child p) as [[[[[[e eType] pre] post] [er|]]|msg] q];
    try discriminate.
  unfold_go.
  destruct (Function q) as [decl|]; [|discriminate].
  destruct (functionDefinitions q !! ast.FunctionDecl.Name decl) as [d|];
    [|discriminate].
  destruct (CastExpr e eType (FunctionDefinition.ReturnType d) q)
    as [[[t cerr]|msg] q1]; [|discriminate].
  destruct (AddMessage _ q1) as [[failed|msg] q2]; [|discriminate].
  destruct (inMain (Function q2)).
  - destruct (exitsWithStatus e).
    + unfold AddImport, modify. intros [= <- <- <- <- _].
      split; [reflexivity|]. split; [eauto|]. right. eexists. right. reflexivity.
    + intros [= <- <- <- <- _].
      split; [reflexivity|]. split; [eauto|]. now left.
  - intros [= <- <- <- <- _].
    split; [reflexivity|]. split; [eauto|]. right. eexists. left. reflexivity.
Qed.

Hypothesis expr_keeps_function :
  forall c p, Function (snd (transpileToExpr c p)) = Function p.
Hypothesis cast_keeps_function :
  forall e from to p, Function (snd (CastExpr e from to p)) = Function p.

(** X12: in a function other than [main], a return statement whose
    expression is cast without error returns the cast value as its one
    result, with the statements that the expression asked for; the
    lowering itself records nothing and imports nothing. *)
Theorem return_in_function (n : ast.ReturnStmt.t) (child : ast.Node)
    (rest : list ast.Node) (p p1 p2 : Program) (decl : ast.FunctionDecl.t)
    (d : FunctionDefinition.t) (e t : goast.Expr) (eType : string)
    (preStmts postStmts : list goast.Stmt) :
  ast.ReturnStmt.Children n = child :: rest ->
  Function p = Some decl ->
  ast.FunctionDecl.Name decl <> "main" ->
  transpileToExpr child p = (Done (e, eType, preStmts, postStmts, None), p1) ->
  functionDefinitions p1 !! ast.FunctionDecl.Name decl = Some d ->
  CastExpr e eType (FunctionDefinition.ReturnType d) p1 = (Done (t, None), p2) ->
  lowerReturn n p =
    (Done (Some (goast.ReturnStmt [t]), preStmts, postStmts, None), p2).
Proof.
  intros Hc Hf Hmain He Hd Hcast.
  rewrite (return_with_value _ _ expr_keeps_function cast_keeps_function
             _ _ _ _ _ _ _ _ _ _ _ _ _ _ Hc Hf He Hd Hcast).
  cbv zeta. now rewrite (proj2 (String.eqb_neq _ _) Hmain).
Qed.

End MoreReturns.

(** ** A return statement in the body of a declaration *)

Section ReturnsInBodies.

Variable transpileToExpr :
  ast.Node ->
  M (goast.Expr * string * list goast.Stmt * list goast.Stmt * option error).
Variable CastExpr :
  goast.Expr -> string -> string -> M (goast.Expr * option error).

Hypothesis expr_keeps_function :
  forall c p, Function (snd (transpileToExpr c p)) = Function p.
Hypothesis cast_keeps_function :
  forall e from to p, Function (snd (CastExpr e from to p)) = Function p.
Hypothesis expr_keeps_registered :
  forall c p, keepsRegistered p (snd (transpileToExpr c p)).

(** X19: a return statement lowered in [p] as the lowering of a
    declaration hands it to the lowering of the body finds the active
    function and its signature, and casts to the return type of the
    registered signature: the one of an earlier declaration of the name
    when there is one, whatever the prototype of this declaration says. *)
Theorem return_in_body (n : ast.FunctionDecl.t) (r : ast.ReturnStmt.t)
    (child : ast.Node) (rest : list ast.Node) (p p1 p2 : Program)
    (d : FunctionDefinition.t) (e t : goast.Expr) (eType : string)
    (preStmts postStmts : list goast.Stmt) :
  ast.FunctionDecl.Name n <> "main" ->
  signatureOf n p = Done d ->
  ast.ReturnStmt.Children r = child :: rest ->
  transpileToExpr child (entered n d p) =
    (Done (e, eType, preStmts, postStmts, None), p1) ->
  CastExpr e eType (FunctionDefinition.ReturnType d) p1 = (Done (t, None), p2) ->
  transpileReturnStmt transpileToExpr CastExpr r (entered n d p) =
    (Done (Some (goast.ReturnStmt [t]), preStmts, postStmts, None), p2).
Proof.
  intros Hmain Hsig Hc He Hcast.
  assert (Hd : functionDefinitions p1 !! ast.FunctionDecl.Name n = Some d).
  { pose proof (expr_keeps_registered child (entered n d p)) as K.
    rewrite He in K. cbn [snd] in K. apply K. now apply entered_lookup. }
  rewrite (return_with_value _ _ expr_keeps_function cast_keeps_function
             _ _ _ _ _ _ _ _ _ _ _ _ _ _ Hc (entered_function n d p) He Hd Hcast).
  cbv zeta. now rewrite (proj2 (String.eqb_neq _ _) Hmain).
Qed.

End ReturnsInBodies.

(** ** Further sample runs *)

Lemma getFieldList_fields_witness :
  @None error = None /\
  map goast.Field.Names
    [fieldOf "s" "struct shape"; fieldOf "scale" "double"] =
    map (fun name => [goast.Ident name])
      (parameterNames (ast.FunctionDecl.Children areaDecl)) /\
  length [fieldOf "s" "struct shape"; fieldOf "scale" "double"] =
    length (getFunctionArgumentTypes areaDecl).
Proof.
  apply (getFieldList_fields resolve areaDecl emptyProgram emptyProgram).
  reflexivity.
Defined.

Lemma getFieldList_warnings_witness :
  exists p',
    getFieldList resolvePure areaDecl emptyProgram =
      (Done (map (fun '(name, ty) => fieldOf name (fst (resolveKnown ty)))
               (parameters (ast.FunctionDecl.Children areaDecl)), None), p') /\
    messages p' =
      messages emptyProgram ++
      warningsOf resolveKnown (parameters (ast.FunctionDecl.Children areaDecl)) /\
    imports p' = imports emptyProgram /\ Decls p' = Decls emptyProgram /\
    functionDefinitions p' = functionDefinitions emptyProgram.
Proof.
  exact (getFieldList_warnings resolvePure resolveKnown
           (fun _ _ => eq_refl) areaDecl emptyProgram).
Defined.

Lemma prototype_only_witness :
  exists p',
    transpileFunctionDecl lowerBlock resolve areaPrototype emptyProgram =
      (Done None, p') /\
    Function p' = None /\
    functionDefinitions p' !! "area" = Some areaSignature /\
    (forall name, name <> "area" ->
       functionDefinitions p' !! name = functionDefinitions emptyProgram !! name) /\
    Decls p' = Decls emptyProgram /\ messages p' = messages emptyProgram /\
    imports p' = imports emptyProgram /\ stdout p' = stdout emptyProgram /\
    Verbose p' = Verbose emptyProgram.
Proof.
  apply (prototype_only lowerBlock resolve areaPrototype emptyProgram areaSignature);
    reflexivity.
Defined.

Lemma body_error_witness :
  transpileFunctionDecl failBlock resolve areaDecl emptyProgram =
    (Done (Some (mkError "cannot transpile statement")),
     setFunction None (entered areaDecl areaSignature emptyProgram)).
Proof.
  apply (body_error failBlock resolve areaDecl emptyProgram
           (entered areaDecl areaSignature emptyProgram) areaSignature
           (ast.CompoundStmt []) None [] []);
    reflexivity.
Defined.

Lemma main_without_arguments_witness :
  exists p',
    transpileFunctionDecl lowerBlock resolve mainNoArguments emptyProgram =
      (Done None, p') /\
    Decls p' =
      Decls (entered mainNoArguments mainVoidSignature emptyProgram) ++
      [goast.Func
         (goast.FuncDecl.mk (goast.Ident "main") (goast.FuncType.mk [] [])
            (Some [goast.ExprStmt (goast.CallExpr (goast.Ident "__init") []);
                   goast.ReturnStmt []]))] /\
    imports p' = imports (entered mainNoArguments mainVoidSignature emptyProgram).
Proof.
  apply (main_without_arguments lowerBlock resolve
           (fun _ _ => eq_refl) (fun _ _ => eq_refl)
           mainNoArguments emptyProgram
           (entered mainNoArguments mainVoidSignature emptyProgram)
           (entered mainNoArguments mainVoidSignature emptyProgram)
           mainVoidSignature (ast.CompoundStmt [ast.OtherNode "ReturnStmt" []])
           [goast.ReturnStmt []] [] [] "int" None);
    reflexivity.
Defined.

Lemma main_with_one_argument_witness :
  exists p',
    transpileFunctionDecl lowerBlock resolve mainOneArgument emptyProgram =
      (Done None, p') /\
    Decls p' =
      Decls (entered mainOneArgument mainIntSignature emptyProgram) ++
      [goast.Func
         (goast.FuncDecl.mk (goast.Ident "main") (goast.FuncType.mk [] [])
            (Some [goast.ExprStmt (goast.CallExpr (goast.Ident "__init") []);
                   goast.ExprStmt
                     (goast.BinaryExpr (goast.Ident "argc") token.DEFINE
                        (goast.Ident "len(os.Args)"));
                   goast.ReturnStmt []]))] /\
    In "os" (imports p').
Proof.
  apply (main_with_one_argument lowerBlock resolve
           (fun _ _ => eq_refl) (fun _ _ => eq_refl)
           mainOneArgument emptyProgram
           (entered mainOneArgument mainIntSignature emptyProgram)
           (entered mainOneArgument mainIntSignature emptyProgram)
           (entered mainOneArgument mainIntSignature emptyProgram)
           mainIntSignature (ast.CompoundStmt [ast.OtherNode "ReturnStmt" []])
           [goast.ReturnStmt []] [] []
           [goast.Field.mk [goast.Ident "argc"] (goast.Ident "int")]
           "int" None "argc");
    reflexivity.
Defined.

Lemma function_definition_witness :
  exists p',
    transpileFunctionDecl lowerBlock resolve areaDecl emptyProgram =
      (Done None, p') /\
    Decls p' =
      Decls (entered areaDecl areaSignature emptyProgram) ++
      [goast.Func
         (goast.FuncDecl.mk (goast.Ident "area")
            (goast.FuncType.mk
               [fieldOf "s" "struct shape"; fieldOf "scale" "double"]
               [goast.Field.mk [] (goast.Ident "double")])
            (Some [goast.ReturnStmt []]))] /\
    map goast.Field.Names [fieldOf "s" "struct shape"; fieldOf "scale" "double"] =
      map (fun name => [goast.Ident name])
        (parameterNames (ast.FunctionDecl.Children areaDecl)) /\
    imports p' = imports (entered areaDecl areaSignature emptyProgram).
Proof.
  apply (function_definition lowerBlock resolve
           (fun _ _ => eq_refl) (fun _ _ => eq_refl)
           areaDecl emptyProgram
           (entered areaDecl areaSignature emptyProgram)
           (entered areaDecl areaSignature emptyProgram)
           (entered areaDecl areaSignature emptyProgram)
           areaSignature (ast.CompoundStmt [])
           (Some [goast.ReturnStmt []]) [] []
           [fieldOf "s" "struct shape"; fieldOf "scale" "double"]
           "double" None);
    try reflexivity.
  discriminate.
Defined.

Lemma error_is_body_error_witness :
  exists b d body preStmts postStmts p1,
    getFunctionBody areaDecl = Some b /\
    signatureOf areaDecl emptyProgram = Done d /\
    failBlock b (entered areaDecl d emptyProgram) =
      (Done (body, preStmts, postStmts,
             Some (mkError "cannot transpile statement")), p1) /\
    setFunction None (entered areaDecl areaSignature emptyProgram) =
      setFunction None p1.
Proof.
  apply (error_is_body_error failBlock resolve areaDecl emptyProgram
           (setFunction None (entered areaDecl areaSignature emptyProgram))
           (mkError "cannot transpile statement")).
  reflexivity.
Defined.

Lemma registers_one_name_witness :
  (forall d,
     signatureOf areaDecl emptyProgram = Done d ->
     functionDefinitions
       (snd (transpileFunctionDecl lowerBlock resolve areaDecl emptyProgram)) =
       <[ast.FunctionDecl.Name areaDecl := d]> (functionDefinitions emptyProgram)) /\
  (forall msg,
     signatureOf areaDecl emptyProgram = Panicked msg ->
     functionDefinitions
       (snd (transpileFunctionDecl lowerBlock resolve areaDecl emptyProgram)) =
       functionDefinitions emptyProgram).
Proof.
  exact (registers_one_name lowerBlock resolve
           (fun _ _ => eq_refl) (fun _ _ => eq_refl) areaDecl emptyProgram).
Defined.

Lemma return_in_function_witness :
  transpileReturnStmt lowerExprX castSame returnOne squareProgram =
    (Done (Some (goast.ReturnStmt [goast.Ident "x"]),
           [goast.OtherStmt "tmp := x"], [], None), squareProgram).
Proof.
  apply (return_in_function lowerExprX castSame
           (fun _ _ => eq_refl) (fun _ _ _ _ => eq_refl)
           returnOne (ast.OtherNode "IntegerLiteral" []) [] squareProgram
           squareProgram squareProgram
           (ast.FunctionDecl.mk "square" "int (int)" [ast.ParmVarDecl "x" "int"])
           squareIntSignature (goast.Ident "x") (goast.Ident "x") "int");
    try reflexivity.
  discriminate.
Defined.

Lemma return_expression_error_witness :
  transpileReturnStmt failExpr castSame returnOne emptyProgram =
    (Done (None, [], [], Some (mkError "cannot transpile expression")),
     emptyProgram).
Proof.
  apply (return_expression_error failExpr castSame returnOne
           (ast.OtherNode "IntegerLiteral" []) [] emptyProgram emptyProgram
           (goast.Ident "x") "int" [goast.OtherStmt "tmp := x"] []);
    reflexivity.
Defined.

Lemma return_outside_function_witness :
  transpileReturnStmt lowerExprX castSame returnOne emptyProgram =
    (Panicked nilDereference, emptyProgram).
Proof.
  apply (return_outside_function lowerExprX castSame returnOne
           (ast.OtherNode "IntegerLiteral" []) [] emptyProgram emptyProgram
           (goast.Ident "x") "int" [goast.OtherStmt "tmp := x"] []);
    [reflexivity | reflexivity | now left].
Defined.

Lemma return_statement_shape_witness :
  @None error = None /\
  (exists e eType q,
     lowerExprX (ast.OtherNode "IntegerLiteral" []) squareProgram =
       (Done (e, eType, [goast.OtherStmt "tmp := x"], [], None), q)) /\
  (goast.ReturnStmt [goast.Ident "x"] = goast.ReturnStmt [] \/
   exists value,
     goast.ReturnStmt [goast.Ident "x"] = goast.ReturnStmt [value] \/
     goast.ReturnStmt [goast.Ident "x"] =
       goast.ExprStmt (goast.CallExpr (goast.Ident "os.Exit") [value])).
Proof.
  apply (return_statement_shape lowerExprX castSame returnOne
           (ast.OtherNode "IntegerLiteral" []) [] squareProgram squareProgram);
    reflexivity.
Defined.

Lemma verbose_announcement_witness :
  stdout (snd (transpileFunctionDecl lowerBlock resolve areaDecl verboseProgram)) =
    stdout (entered areaDecl areaSignature verboseProgram) ++
    (if Verbose (entered areaDecl areaSignature verboseProgram)
     then [announcement areaSignature] else []).
Proof.
  apply (verbose_announcement lowerBlock resolve (fun _ _ => eq_refl)
           areaDecl verboseProgram
           (entered areaDecl areaSignature verboseProgram) areaSignature
           (ast.CompoundStmt []) (Some [goast.ReturnStmt []]) [] []);
    reflexivity.
Defined.

Lemma forward_declaration_witness :
  transpileFunctionDecl lowerBlock resolve areaDecl
    (snd (transpileFunctionDecl lowerBlock resolve areaPrototype emptyProgram)) =
  transpileFunctionDecl lowerBlock resolve areaDecl emptyProgram.
Proof.
  apply (forward_declaration lowerBlock resolve areaPrototype areaDecl
           emptyProgram areaSignature);
    reflexivity.
Defined.

Lemma return_in_body_witness :
  transpileReturnStmt lowerExprX castSame returnOne
    (entered squareLong squareIntSignature squareProgram) =
    (Done (Some (goast.ReturnStmt [goast.Ident "x"]),
           [goast.OtherStmt "tmp := x"], [], None),
     entered squareLong squareIntSignature squareProgram).
Proof.
  apply (return_in_body lowerExprX castSame
           (fun _ _ => eq_refl) (fun _ _ _ _ => eq_refl)
           (fun _ _ _ _ H => H)
           squareLong returnOne (ast.OtherNode "IntegerLiteral" []) []
           squareProgram
           (entered squareLong squareIntSignature squareProgram)
           (entered squareLong squareIntSignature squareProgram)
           squareIntSignature (goast.Ident "x") (goast.Ident "x") "int");
    try reflexivity.
  discriminate.
Defined.

(** * The result types and the active function *)

Lemma rewriteMain_body (fieldList params results : goast.FieldList)
    (body body' : option goast.BlockStmt) (p p' : Program) :
  rewriteMain fieldList body p = (Done (params, results, body'), p') ->
  exists stmts stmts', body = Some stmts /\ body' = Some stmts'.
Proof.
  unfold rewriteMain, index.
  destruct fieldList as [|[[|argc names0] ty0] [|[[|argv names1] ty1] fl]];
    destruct body as [stmts|]; cbn; intros [=]; subst;
    eexists _, _; split; reflexivity.
Qed.

Section ResultTypes.

Variable transpileToBlockStmt :
  ast.Node ->
  M (option goast.BlockStmt * list goast.Stmt * list goast.Stmt * option error).
Variable ResolveType : string -> M (string * option error).

#[local] Abbreviation lowerDecl :=
  (transpileFunctionDecl transpileToBlockStmt ResolveType).

(** C10: the lowering of a declaration assembles a definition when it
    comes to line 104 with a body and the types then resolve, and in no
    other case.  The definition of any function but [main] has exactly one
    result type, the field of the type that the return type of the
    signature resolves to in this run ([void] or not); the definition of
    [main] has none.  In every other case the program is left as the last
    call left it, with the active function reset: nothing is added to
    [File.Decls]. *)
Theorem result_types (n : ast.FunctionDecl.t) (p : Program) :
  (forall d body p1 fieldList p2 t err p3,
     (forall b, keepsFunction (transpileToBlockStmt b)) ->
     (forall ty, keepsFunction (ResolveType ty)) ->
     bodyLowered transpileToBlockStmt n p d body p1 ->
     getFieldListOf ResolveType (ast.FunctionDecl.Children n) [] (announced d p1) =
       (Done fieldList, p2) ->
     ResolveType (FunctionDefinition.ReturnType d) p2 = (Done (t, err), p3) ->
     (ast.FunctionDecl.Name n <> "main" ->
      exists p',
        lowerDecl n p = (Done None, p') /\
        Decls p' =
          Decls p3 ++
          [goast.Func
             (goast.FuncDecl.mk (goast.Ident (ast.FunctionDecl.Name n))
                (goast.FuncType.mk fieldList [goast.Field.mk [] (goast.Ident t)])
                body)]) /\
     (ast.FunctionDecl.Name n = "main" ->
      forall stmts, body = Some stmts ->
      exists p' stmts',
        lowerDecl n p = (Done None, p') /\
        Decls p' =
          Decls p3 ++
          [goast.Func
             (goast.FuncDecl.mk (goast.Ident "main") (goast.FuncType.mk [] [])
                (Some stmts'))]) /\
     (ast.FunctionDecl.Name n = "main" -> body = None ->
      Decls (snd (lowerDecl n p)) = Decls p3)) /\
  (forall msg,
     signatureOf n p = Panicked msg ->
     snd (lowerDecl n p) = setFunction None p) /\
  (forall d,
     signatureOf n p = Done d ->
     FunctionDefinition.Substitution d <> "" \/ getFunctionBody n = None ->
     snd (lowerDecl n p) = setFunction None (entered n d p)) /\
  (forall d b r p1,
     signatureOf n p = Done d ->
     FunctionDefinition.Substitution d = "" ->
     getFunctionBody n = Some b ->
     transpileToBlockStmt b (entered n d p) = (r, p1) ->
     isIgnoredName (ast.FunctionDecl.Name n) = true \/
     (forall body preStmts postStmts, r <> Done (body, preStmts, postStmts, None)) ->
     snd (lowerDecl n p) = setFunction None p1) /\
  (forall d body p1 msg p2,
     bodyLowered transpileToBlockStmt n p d body p1 ->
     getFieldListOf ResolveType (ast.FunctionDecl.Children n) [] (announced d p1) =
       (Panicked msg, p2) ->
     snd (lowerDecl n p) = setFunction None p2) /\
  (forall d body p1 fieldList p2 msg p3,
     bodyLowered transpileToBlockStmt n p d body p1 ->
     getFieldListOf ResolveType (ast.FunctionDecl.Children n) [] (announced d p1) =
       (Done fieldList, p2) ->
     ResolveType (FunctionDefinition.ReturnType d) p2 = (Panicked msg, p3) ->
     snd (lowerDecl n p) = setFunction None p3).
Proof.
  repeat apply conj.
  - intros d body p1 fieldList p2 t err p3 Kb Kr
      (Hsig & Hsub & Hign & b & pre & post & Hb & Hblk) Hfl Hrt.
    rewrite (lowerDecl_emits _ _ _ _ _ _ _ _ _ _ _ _ _ _ _
               Hsig Hsub Hb Hign Hblk Hfl Hrt).
    cbv zeta.
    rewrite (function_at_assembly _ _ Kb Kr _ _ _ _ _ _ _ _ _ _ _ Hblk Hfl Hrt).
    cbn [inMain].
    set (p4 := snd (AddMessage (GenerateWarningMessage err "FunctionDecl") p3)).
    assert (D4 : Decls p4 = Decls p3) by apply AddMessage_decls.
    repeat apply conj.
    + intros Hmain. rewrite (proj2 (String.eqb_neq _ _) Hmain).
      eexists. split; [reflexivity|]. cbn. now rewrite D4.
    + intros Hmain stmts ->. rewrite Hmain. cbn [String.eqb Ascii.eqb Bool.eqb].
      pose proof (rewriteMain_decls fieldList (Some stmts) p4) as D5.
      destruct (rewriteMain fieldList (Some stmts) p4)
        as [[[[params results] body']|msg] p5] eqn:Hrw; cbn [snd] in D5.
      * destruct (rewriteMain_Done _ _ _ _ _ _ _ Hrw) as [-> ->].
        destruct (rewriteMain_body _ _ _ _ _ _ _ Hrw) as (s & s' & _ & ->).
        eexists _, s'. split; [reflexivity|]. cbn. now rewrite D5, D4.
      * apply getFieldListOf_names in Hfl. cbn [map app] in Hfl.
        now destruct (rewriteMain_panic _ _ _ _ _ _ Hfl Hrw).
    + intros Hmain ->. rewrite Hmain. cbn [String.eqb Ascii.eqb Bool.eqb].
      pose proof (rewriteMain_decls fieldList None p4) as D5.
      destruct (rewriteMain fieldList None p4)
        as [[[[params results] body']|msg] p5] eqn:Hrw; cbn [snd] in D5.
      * now destruct (rewriteMain_body _ _ _ _ _ _ _ Hrw) as (s & s' & ? & _).
      * cbn. now rewrite D5, D4.
  - intros msg Hsig. rewrite lowerDecl_unfold. cbv zeta. now rewrite Hsig.
  - intros d Hsig H. rewrite lowerDecl_unfold. cbv zeta. rewrite Hsig.
    destruct H as [Hs | Hb].
    + now rewrite (eqb_empty_false _ Hs).
    + rewrite Hb. now destruct (negb _).
  - intros d b r p1 Hsig Hsub Hb Hblk H. rewrite lowerDecl_unfold. cbv zeta.
    rewrite Hsig, Hsub, Hb, Hblk. cbn [negb String.eqb].
    destruct r as [[[[body pre] post] [e|]]|msg]; try reflexivity.
    destruct H as [-> | H]; [reflexivity|]. now destruct (H body pre post).
  - intros d body p1 msg p2 (Hsig & Hsub & Hign & b & pre & post & Hb & Hblk) Hfl.
    rewrite lowerDecl_unfold. cbv zeta.
    now rewrite Hsig, Hsub, Hb, Hblk, Hign, Hfl.
  - intros d body p1 fieldList p2 msg p3
      (Hsig & Hsub & Hign & b & pre & post & Hb & Hblk) Hfl Hrt.
    rewrite lowerDecl_unfold. cbv zeta.
    now rewrite Hsig, Hsub, Hb, Hblk, Hign, Hfl, Hrt.
Qed.

End ResultTypes.

Section ActiveFunction.

Variable transpileToBlockStmt :
  ast.Node ->
  M (option goast.BlockStmt * list goast.Stmt * list goast.Stmt * option error).
Variable ResolveType : string -> M (string * option error).

#[local] Abbreviation lowerDecl :=
  (transpileFunctionDecl transpileToBlockStmt ResolveType).

(** A run of the loop is the run of [getFieldList]'s loop. *)
Lemma fieldListRun_getFieldListOf (P : Program -> Prop)
    (children : list ast.Node) (r : goast.FieldList) (p : Program)
    (res : outcome goast.FieldList * Program) :
  fieldListRun ResolveType P children r p res ->
  getFieldListOf ResolveType children r p = res.
Proof.
  induction 1 as [r p | name ty rest r p t err q res HP Hrt Hrun IH
                 | name ty rest r p msg q HP Hrt | cs rest r p res Hrun IH
                 | kind cs rest r p res Hrun IH];
    cbn [getFieldListOf]; try assumption; try reflexivity.
  - unfold bind at 1. rewrite Hrt. unfold bind at 1.
    destruct (AddMessage _ q) as [[added|msg] q'] eqn:E.
    + exact IH.
    + unfold AddMessage in E. now destruct (String.eqb _ "").
  - unfold bind at 1. now rewrite Hrt.
Qed.

(** In the loop of [getFieldList] every type is resolved with the active
    function that the loop starts with. *)
Lemma getFieldListOf_run (n : ast.FunctionDecl.t) :
  (forall ty, keepsFunction (ResolveType ty)) ->
  forall children r p,
    Function p = Some n ->
    fieldListRun ResolveType (fun q => Function q = Some n) children r p
      (getFieldListOf ResolveType children r p).
Proof.
  intros Kr children.
  induction children as [|c children IH]; intros r p Hp; cbn [getFieldListOf].
  - constructor.
  - destruct c as [name ty | cs | kind cs]; try (constructor; now apply IH).
    unfold bind at 1.
    pose proof (Kr ty p) as F.
    destruct (ResolveType ty p) as [[[t err]|msg] q] eqn:Hrt; cbn [snd] in F.
    + eapply run_resolved; [exact Hp | exact Hrt |].
      unfold bind at 1.
      pose proof (AddMessage_function (GenerateWarningMessage err "FunctionDecl") q) as F'.
      destruct (AddMessage _ q) as [[added|msg] q'] eqn:E; cbn [snd] in *.
      * apply IH. congruence.
      * unfold AddMessage in E. now destruct (String.eqb _ "").
    + eapply run_panicked; [exact Hp | exact Hrt].
Qed.

(** C9: however the lowering of a declaration ends, with or without an
    error or in a panic, [p.Function] is nil afterwards.  While it runs the
    active function is the declaration: the body is lowered in a program
    whose [p.Function] is the declaration, and, when the lowering of
    statements and of types leaves [p.Function] alone, so is the type of
    every parameter and the return type resolved, and so is [main]
    recognised by the name of the declaration.  Each of these calls is the
    one that decides the outcome. *)
Theorem active_function (n : ast.FunctionDecl.t) (p : Program) :
  (forall o p', lowerDecl n p = (o, p') -> Function p' = None) /\
  (forall d b,
     signatureOf n p = Done d ->
     FunctionDefinition.Substitution d = "" ->
     getFunctionBody n = Some b ->
     Function (entered n d p) = Some n /\
     (forall msg p1,
        transpileToBlockStmt b (entered n d p) = (Panicked msg, p1) ->
        lowerDecl n p = (Panicked msg, setFunction None p1)) /\
     (forall body preStmts postStmts e p1,
        transpileToBlockStmt b (entered n d p) =
          (Done (body, preStmts, postStmts, Some e), p1) ->
        lowerDecl n p = (Done (Some e), setFunction None p1))) /\
  (forall d body p1,
     (forall b, keepsFunction (transpileToBlockStmt b)) ->
     (forall ty, keepsFunction (ResolveType ty)) ->
     bodyLowered transpileToBlockStmt n p d body p1 ->
     fieldListRun ResolveType (fun q => Function q = Some n)
       (ast.FunctionDecl.Children n) [] (announced d p1)
       (getFieldListOf ResolveType (ast.FunctionDecl.Children n) []
          (announced d p1)) /\
     (forall msg p2,
        getFieldListOf ResolveType (ast.FunctionDecl.Children n) []
          (announced d p1) = (Panicked msg, p2) ->
        lowerDecl n p = (Panicked msg, setFunction None p2)) /\
     (forall fieldList p2,
        getFieldListOf ResolveType (ast.FunctionDecl.Children n) []
          (announced d p1) = (Done fieldList, p2) ->
        Function p2 = Some n /\
        (forall msg p3,
           ResolveType (FunctionDefinition.ReturnType d) p2 = (Panicked msg, p3) ->
           lowerDecl n p = (Panicked msg, setFunction None p3)) /\
        (forall t err p3,
           ResolveType (FunctionDefinition.ReturnType d) p2 = (Done (t, err), p3) ->
           let p4 :=
             snd (AddMessage (GenerateWarningMessage err "FunctionDecl") p3) in
           Function p4 = Some n /\
           lowerDecl n p =
             if String.eqb (ast.FunctionDecl.Name n) "main" then
               match rewriteMain fieldList body p4 with
               | (Done (params, results, body'), p5) =>
                   (Done None,
                    setFunction None
                      (withDefinition (ast.FunctionDecl.Name n) params results
                         body' p5))
               | (Panicked msg, p5) => (Panicked msg, setFunction None p5)
               end
             else
               (Done None,
                setFunction None
                  (withDefinition (ast.FunctionDecl.Name n) fieldList
                     [goast.Field.mk [] (goast.Ident t)] body p4))))).
Proof.
  repeat apply conj.
  - intros o p' H.
    pose proof (defer_state (A := option error) (setFunction None)) as D.
    unfold transpileFunctionDecl in H.
    match type of H with
    | defer _ ?m _ = _ => specialize (D m p)
    end.
    rewrite H in D. cbn [snd] in D. now rewrite D.
  - intros d b Hsig Hsub Hb. repeat apply conj.
    + apply entered_function.
    + intros msg p1 Hblk. rewrite lowerDecl_unfold. cbv zeta.
      now rewrite Hsig, Hsub, Hb, Hblk.
    + intros body pre post e p1 Hblk. rewrite lowerDecl_unfold. cbv zeta.
      now rewrite Hsig, Hsub, Hb, Hblk.
  - intros d body p1 Kb Kr (Hsig & Hsub & Hign & b & pre & post & Hb & Hblk).
    assert (F1 : Function (announced d p1) = Some n).
    { rewrite announced_function.
      pose proof (Kb b (entered n d p)) as F. rewrite Hblk in F. cbn [snd] in F.
      rewrite F. apply entered_function. }
    repeat apply conj.
    + now apply getFieldListOf_run.
    + intros msg p2 Hfl. rewrite lowerDecl_unfold. cbv zeta.
      now rewrite Hsig, Hsub, Hb, Hblk, Hign, Hfl.
    + intros fieldList p2 Hfl.
      assert (F2 : Function p2 = Some n).
      { pose proof (fieldList_keeps_function ResolveType Kr
                      (ast.FunctionDecl.Children n) [] (announced d p1)) as F.
        rewrite Hfl in F. cbn [snd] in F. congruence. }
      repeat apply conj.
      * exact F2.
      * intros msg p3 Hrt. rewrite lowerDecl_unfold. cbv zeta.
        now rewrite Hsig, Hsub, Hb, Hblk, Hign, Hfl, Hrt.
      * intros t err p3 Hrt p4.
        assert (F4 : Function p4 = Some n)
          by exact (function_at_assembly _ _ Kb Kr _ _ _ _ _ _ _ _ _ _ _
                      Hblk Hfl Hrt).
        split; [exact F4|].
        rewrite (lowerDecl_emits _ _ _ _ _ _ _ _ _ _ _ _ _ _ _
                   Hsig Hsub Hb Hign Hblk Hfl Hrt).
        cbv zeta. fold p4. now rewrite F4.
Qed.

End ActiveFunction.

(** * Panics *)

Section Panics.

Variable transpileToBlockStmt :
  ast.Node ->
  M (option goast.BlockStmt * list goast.Stmt * list goast.Stmt * option error).
Variable ResolveType : string -> M (string * option error).

#[local] Abbreviation lowerDecl :=
  (transpileFunctionDecl transpileToBlockStmt ResolveType).

(** The loop of [getFieldList] panics when the resolution of the type of a
    parameter does, and leaves the program as that call left it. *)
Lemma getFieldListOf_panicked (children : list ast.Node) (r : goast.FieldList)
    (p p' : Program) (msg : string) :
  getFieldListOf ResolveType children r p = (Panicked msg, p') ->
  exists ty q,
    In ty (getArgumentTypesOf children) /\
    ResolveType ty q = (Panicked msg, p').
Proof.
  revert r p; induction children as [|c cs IH]; intros r p;
    cbn [getFieldListOf getArgumentTypesOf]; [discriminate|].
  destruct c as [name ty | body | kind sub]; try apply IH.
  unfold bind at 1.
  destruct (ResolveType ty p) as [[[t err]|msg'] q] eqn:E.
  - unfold bind at 1. unfold AddMessage. intros H.
    assert (H' : exists ty' q', In ty' (getArgumentTypesOf cs) /\
                                ResolveType ty' q' = (Panicked msg, p'))
      by (destruct (String.eqb _ ""); eapply IH; exact H).
    destruct H' as (ty' & q' & Hin & Hq). exists ty', q'. split; [now right | exact Hq].
  - intros [= -> ->]. exists ty, p. split; [now left | exact E].
Qed.

(** X10: a panic of the lowering of a declaration is one of five.  Either
    the prototype of a name that is not registered has no return type; or
    the lowering of the body, called in the program that the declaration
    was entered with, panicked; or the resolution of the type of a
    parameter did, in the loop of [getFieldList] of this run; or the
    resolution of the return type did, in the program that this loop left;
    or else the active function is [main] at line 127 and the body was
    lowered to a nil block without error, which is dereferenced.  In each
    case the program is left as the panicking call left it, with the
    active function reset.  The parameters of [main] and their names are
    never indexed out of range. *)
Theorem panic_origin (n : ast.FunctionDecl.t) (p p' : Program) (msg : string) :
  lowerDecl n p = (Panicked msg, p') ->
  (functionDefinitions p !! ast.FunctionDecl.Name n = None /\
   getFunctionReturnType (ast.FunctionDecl.Type' n) = Panicked msg /\
   p' = setFunction None p) \/
  exists d b,
    signatureOf n p = Done d /\
    FunctionDefinition.Substitution d = "" /\
    getFunctionBody n = Some b /\
    ((exists p1,
        transpileToBlockStmt b (entered n d p) = (Panicked msg, p1) /\
        p' = setFunction None p1) \/
     exists body p1,
       bodyLowered transpileToBlockStmt n p d body p1 /\
       ((exists p2,
           getFieldListOf ResolveType (ast.FunctionDecl.Children n) []
             (announced d p1) = (Panicked msg, p2) /\
           p' = setFunction None p2 /\
           exists ty q,
             In ty (getFunctionArgumentTypes n) /\
             ResolveType ty q = (Panicked msg, p2)) \/
        exists fieldList p2,
          getFieldListOf ResolveType (ast.FunctionDecl.Children n) []
            (announced d p1) = (Done fieldList, p2) /\
          ((exists p3,
              ResolveType (FunctionDefinition.ReturnType d) p2 =
                (Panicked msg, p3) /\
              p' = setFunction None p3) \/
           exists t err p3,
             ResolveType (FunctionDefinition.ReturnType d) p2 =
               (Done (t, err), p3) /\
             inMain (Function
                       (snd (AddMessage
                               (GenerateWarningMessage err "FunctionDecl") p3))) =
               true /\
             body = None /\
             msg = nilDereference /\
             Decls p' = Decls p3 /\
             ((forall b', keepsFunction (transpileToBlockStmt b')) ->
              (forall ty, keepsFunction (ResolveType ty)) ->
              ast.FunctionDecl.Name n = "main")))).
Proof.
  rewrite lowerDecl_unfold. cbv zeta.
  destruct (signatureOf n p) as [d|msg'] eqn:Hsig.
  2:{ intros [= -> <-]. left.
      destruct (signatureOf_Panicked _ _ _ Hsig) as [H1 H2]. now repeat split. }
  destruct (String.eqb (FunctionDefinition.Substitution d) "") eqn:Hsub;
    cbn [negb]; [|discriminate].
  apply String.eqb_eq in Hsub.
  destruct (getFunctionBody n) as [b|] eqn:Hb; [|discriminate].
  destruct (transpileToBlockStmt b _) as [[[[[body pre] post] [e'|]]|msg'] p1] eqn:Hblk;
    try discriminate.
  2:{ intros [= -> <-]. right. exists d, b. repeat split; try assumption.
      left. now exists p1. }
  destruct (isIgnoredName _) eqn:Hign; [discriminate|].
  assert (HB : bodyLowered transpileToBlockStmt n p d body p1).
  { repeat split; try assumption. now exists b, pre, post. }
  intros H. right. exists d, b. repeat split; try assumption.
  right. exists body, p1. split; [exact HB|].
  destruct (getFieldListOf _ _ _ _) as [[fl|msg'] p2] eqn:Hfl.
  2:{ injection H as -> <-. left. exists p2. repeat split.
      now apply getFieldListOf_panicked in Hfl. }
  right. exists fl, p2. split; [reflexivity|].
  destruct (ResolveType _ p2) as [[[t err]|msg'] p3] eqn:Hrt.
  2:{ injection H as -> <-. left. now exists p3. }
  right. exists t, err, p3. split; [reflexivity|].
  set (p4 := snd (AddMessage (GenerateWarningMessage err "FunctionDecl") p3)) in *.
  destruct (inMain (Function p4)) eqn:Hmain; [|discriminate].
  pose proof (rewriteMain_decls fl body p4) as D5.
  destruct (rewriteMain fl body p4) as [[[[params results] body']|msg'] p5] eqn:Hrw;
    [discriminate|].
  injection H as -> <-. cbn [snd] in D5.
  pose proof Hfl as Hnames. apply getFieldListOf_names in Hnames.
  cbn [map app] in Hnames.
  destruct (rewriteMain_panic _ _ _ _ _ _ Hnames Hrw) as [-> ->].
  repeat split.
  - cbn. rewrite D5. apply AddMessage_decls.
  - intros Kb Kr.
    destruct HB as (_ & _ & _ & b0 & pre0 & post0 & Hb0 & Hblk0).
    pose proof (function_at_assembly _ _ Kb Kr _ _ _ _ _ _ _ _ _ _
                  (GenerateWarningMessage err "FunctionDecl") Hblk0 Hfl Hrt) as F4.
    fold p4 in F4. rewrite F4 in Hmain. cbn [inMain] in Hmain.
    now apply String.eqb_eq in Hmain.
Qed.

End Panics.

(** ** Sample runs: the active function, the result types, a panic *)

Lemma active_function_witness :
  Function (snd (transpileFunctionDecl lowerBlock resolve mainDecl emptyProgram)) =
    None /\
  Function (entered mainDecl mainSignature emptyProgram) = Some mainDecl /\
  fieldListRun resolve (fun q => Function q = Some mainDecl)
    (ast.FunctionDecl.Children mainDecl) []
    (announced mainSignature (entered mainDecl mainSignature emptyProgram))
    (getFieldListOf resolve (ast.FunctionDecl.Children mainDecl) []
       (announced mainSignature (entered mainDecl mainSignature emptyProgram))).
Proof.
  pose proof (active_function lowerBlock resolve mainDecl emptyProgram)
    as (H1 & H2 & H3).
  split; [|split].
  - apply (H1 (Done None)). reflexivity.
  - apply (H2 mainSignature (ast.CompoundStmt [ast.OtherNode "ReturnStmt" []]));
      reflexivity.
  - apply (H3 mainSignature (Some [goast.ReturnStmt []])
             (entered mainDecl mainSignature emptyProgram)).
    + intros b q. reflexivity.
    + intros ty q. reflexivity.
    + repeat split.
      exists (ast.CompoundStmt [ast.OtherNode "ReturnStmt" []]), [], [].
      split; reflexivity.
Defined.

Lemma result_types_witness :
  exists p',
    transpileFunctionDecl lowerBlock resolve squareDecl emptyProgram =
      (Done None, p') /\
    Decls p' =
      Decls (entered squareDecl squareSignature emptyProgram) ++
      [goast.Func
         (goast.FuncDecl.mk (goast.Ident "square")
            (goast.FuncType.mk [fieldOf "x" "int"]
               [goast.Field.mk [] (goast.Ident "void")])
            (Some [goast.ReturnStmt []]))].
Proof.
  apply (proj1 (proj1 (result_types lowerBlock resolve squareDecl emptyProgram)
                  squareSignature (Some [goast.ReturnStmt []])
                  (entered squareDecl squareSignature emptyProgram)
                  [fieldOf "x" "int"]
                  (entered squareDecl squareSignature emptyProgram)
                  "void" None
                  (entered squareDecl squareSignature emptyProgram)
                  (fun _ _ => eq_refl) (fun _ _ => eq_refl)
                  (conj eq_refl (conj eq_refl (conj eq_refl
                     (ex_intro _ (ast.CompoundStmt [])
                        (ex_intro _ [] (ex_intro _ [] (conj eq_refl eq_refl)))))))
                  eq_refl eq_refl)).
  discriminate.
Defined.

Lemma panic_origin_witness :
  functionDefinitions emptyProgram !! ast.FunctionDecl.Name noTypeDecl = None /\
  getFunctionReturnType (ast.FunctionDecl.Type' noTypeDecl) =
    Panicked "unable to extract the return type from:  (int)" /\
  setFunction None emptyProgram = setFunction None emptyProgram.
Proof.
  destruct (panic_origin lowerBlock resolve noTypeDecl emptyProgram
              (setFunction None emptyProgram)
              "unable to extract the return type from:  (int)" eq_refl)
    as [H | (d & b & Hsig & _)].
  - exact H.
  - discriminate Hsig.
Defined.
